(** * A contextual-selfie service: shallow embedding of [main.py]

    The program is a FastAPI application with one substantial endpoint,
    [POST /v1/generate_image].  The endpoint validates a bot identifier,
    looks for the persona's base photo, asks a text-completion model for
    a reaction and a scene description, calls a remote image generator,
    saves the returned image under a fresh name and answers with the
    image's URL and its Base64 encoding.

    Everything outside the program (the completion model, the Gradio
    client, the JSON parser, the UUID generator, the file system) is a
    component of an explicit environment; the program's own control flow
    and string construction are embedded as functions. *)

From Stdlib Require Import NArith ZArith Ascii String Strings.Byte Lia.
From Stdlib Require Import Floats.SpecFloat.
From stdpp Require Import base option list strings gmap.

Local Open Scope string_scope.

(** ** Characters the source writes with an escape *)

(** The double quote and the line feed. *)
Definition dq : string := String (ascii_of_nat 34) EmptyString.
Definition nl : string := String (ascii_of_nat 10) EmptyString.

(** ** Python's [bytes] and [base64.b64encode] *)

Module Base64.

(** The standard alphabet of RFC 4648, indexed by a 6-bit value. *)
Definition alphabet : string :=
  "ABCDEFGHIJKLMNOPQRSTUVWXYZabcdefghijklmnopqrstuvwxyz0123456789+/".

Definition pad : ascii := "="%char.

Definition char_of (i : N) : ascii :=
  default pad (String.get (N.to_nat i) alphabet).

Definition index_of (c : ascii) : option N :=
  let n := N_of_ascii c in
  if (65 <=? n)%N && (n <=? 90)%N then Some (n - 65)%N
  else if (97 <=? n)%N && (n <=? 122)%N then Some (n - 71)%N
  else if (48 <=? n)%N && (n <=? 57)%N then Some (n + 4)%N
  else if (n =? 43)%N then Some 62%N
  else if (n =? 47)%N then Some 63%N
  else None.

(** The four 6-bit values of a group of three octets. *)
Definition sextet1 (x : N) : N := (x / 4)%N.
Definition sextet2 (x y : N) : N := ((x mod 4) * 16 + y / 16)%N.
Definition sextet3 (y z : N) : N := ((y mod 16) * 4 + z / 64)%N.
Definition sextet4 (z : N) : N := (z mod 64)%N.

(** [base64.b64encode(image_bytes).decode('utf-8')]: the output is
    pure ASCII, so decoding it as UTF-8 yields the same characters. *)
Fixpoint b64encode (bs : list byte) : string :=
  match bs with
  | [] => ""
  | [a] =>
      let x := Byte.to_N a in
      String (char_of (sextet1 x))
        (String (char_of (sextet2 x 0))
           (String pad (String pad "")))
  | [a; b] =>
      let x := Byte.to_N a in
      let y := Byte.to_N b in
      String (char_of (sextet1 x))
        (String (char_of (sextet2 x y))
           (String (char_of (sextet3 y 0)) (String pad "")))
  | a :: b :: c :: rest =>
      let x := Byte.to_N a in
      let y := Byte.to_N b in
      let z := Byte.to_N c in
      String (char_of (sextet1 x))
        (String (char_of (sextet2 x y))
           (String (char_of (sextet3 y z))
              (String (char_of (sextet4 z)) (b64encode rest))))
  end.

(** The octets of a group of 6-bit values. *)
Definition octet1 (s1 s2 : N) : N := (s1 * 4 + s2 / 16)%N.
Definition octet2 (s2 s3 : N) : N := ((s2 mod 16) * 16 + s3 / 4)%N.
Definition octet3 (s3 s4 : N) : N := ((s3 mod 4) * 64 + s4)%N.

(** What a consumer of the response does with [image_base64]: the
    decoding of RFC 4648 with the standard alphabet and mandatory
    padding.  A character outside the alphabet, a length that is not
    a multiple of four and padding before the last group are all
    rejected; the unused low bits of a last partial group are
    dropped. *)
Fixpoint b64decode (s : string) : option (list byte) :=
  match s with
  | "" => Some []
  | String c1 (String c2 (String c3 (String c4 rest))) =>
      s1 ← index_of c1;
      s2 ← index_of c2;
      a ← Byte.of_N (octet1 s1 s2);
      if Ascii.eqb c4 pad then
        match rest with
        | "" =>
            if Ascii.eqb c3 pad then Some [a]
            else
              s3 ← index_of c3;
              b ← Byte.of_N (octet2 s2 s3);
              Some [a; b]
        | _ => None
        end
      else
        s3 ← index_of c3;
        s4 ← index_of c4;
        b ← Byte.of_N (octet2 s2 s3);
        c ← Byte.of_N (octet3 s3 s4);
        tl ← b64decode rest;
        Some (a :: b :: c :: tl)
  | _ => None
  end.

End Base64.

(** ** [uuid.uuid4] and [str] of a UUID *)

Module Uuid.

(** A UUID is its 128-bit integer (the field [int] of Python's
    [uuid.UUID], which the constructor keeps below [2^128]). *)
Definition UUID : Type := N.


Definition hex_digit (d : N) : ascii :=
  default "0"%char (String.get (N.to_nat d) "0123456789abcdef").

(** [w] lowercase hexadecimal digits of [n], most significant first:
    ['%032x' % n] for [w = 32] and [n < 2^128]. *)
Fixpoint hex_digits (w : nat) (n : N) : string :=
  match w with
  | O => ""
  | S w' => String (hex_digit ((n / 16 ^ N.of_nat w') mod 16)%N) (hex_digits w' n)
  end.

(** [UUID.__str__]: the 32 digits cut as 8-4-4-4-12. *)
Definition uuid_str (u : UUID) : string :=
  let hex := hex_digits 32 u in
  substring 0 8 hex ++ "-" ++ substring 8 4 hex ++ "-" ++
  substring 12 4 hex ++ "-" ++ substring 16 4 hex ++ "-" ++
  substring 20 12 hex.

(** Reading the integer back from the text: the digits are read in
    base 16 and every other character (the hyphens) is skipped. *)
Definition digit_of (c : ascii) : option N :=
  let n := N_of_ascii c in
  if (48 <=? n)%N && (n <=? 57)%N then Some (n - 48)%N
  else if (97 <=? n)%N && (n <=? 102)%N then Some (n - 87)%N
  else None.


End Uuid.

(** ** The methods of [str] the endpoint uses *)

Module StrMethods.

Definition is_upper (c : ascii) : bool :=
  let n := N_of_ascii c in (65 <=? n)%N && (n <=? 90)%N.

Definition is_lower (c : ascii) : bool :=
  let n := N_of_ascii c in (97 <=? n)%N && (n <=? 122)%N.

Definition to_upper (c : ascii) : ascii :=
  if is_lower c then ascii_of_N (N_of_ascii c - 32) else c.

Definition to_lower (c : ascii) : ascii :=
  if is_upper c then ascii_of_N (N_of_ascii c + 32) else c.

(** [s.replace("_", " ")]. *)
Fixpoint replace_underscore (s : string) : string :=
  match s with
  | "" => ""
  | String c r =>
      String (if Ascii.eqb c "_" then " "%char else c) (replace_underscore r)
  end.

(** [s.title()]: a cased character that follows an uncased one (or
    starts the string) is put in upper case, one that follows a cased
    character in lower case.  Strings are byte strings here and only
    the ASCII letters count as cased, which is exact for identifiers
    written in ASCII such as [delhi_mentor_male]. *)
Fixpoint title_from (previous_is_cased : bool) (s : string) : string :=
  match s with
  | "" => ""
  | String c r =>
      String (if previous_is_cased then to_lower c else to_upper c)
             (title_from (is_upper c || is_lower c) r)
  end.

Definition title (s : string) : string := title_from false s.

(** [s.rstrip('/')]: every trailing slash is removed. *)
Fixpoint rstrip_slash (s : string) : string :=
  match s with
  | "" => ""
  | String c r =>
      match rstrip_slash r with
      | "" => if Ascii.eqb c "/" then "" else String c ""
      | r' => String c r'
      end
  end.

(** [s.startswith('/')] and [s.endswith('/')]. *)
Definition startswith_slash (s : string) : bool :=
  match s with
  | String c _ => Ascii.eqb c "/"
  | "" => false
  end.

Fixpoint endswith_slash (s : string) : bool :=
  match s with
  | "" => false
  | String c "" => Ascii.eqb c "/"
  | String _ r => endswith_slash r
  end.

(** Every character of [s] satisfies [p]. *)
Fixpoint all_chars (p : ascii -> bool) (s : string) : bool :=
  match s with
  | "" => true
  | String c r => p c && all_chars p r
  end.

Definition is_not (x : ascii) (c : ascii) : bool := negb (Ascii.eqb c x).


End StrMethods.

(** ** The path component of a URL

    How a client reads the [image_url] it receives (RFC 3986, as
    [urllib.parse.urlsplit] does): the scheme ends at [://], the
    authority at the next [/], [?] or [#], and the path runs from there
    to the first [?] or [#]. *)

Module Url.

Definition ends_authority (c : ascii) : bool :=
  Ascii.eqb c "/" || Ascii.eqb c "?" || Ascii.eqb c "#".

Definition ends_path (c : ascii) : bool :=
  Ascii.eqb c "?" || Ascii.eqb c "#".

Fixpoint after_scheme (url : string) : option string :=
  match url with
  | "" => None
  | String c r =>
      match r with
      | String c1 (String c2 r') =>
          if Ascii.eqb c ":" && Ascii.eqb c1 "/" && Ascii.eqb c2 "/" then Some r'
          else after_scheme r
      | _ => None
      end
  end.

Fixpoint drop_authority (s : string) : string :=
  match s with
  | "" => ""
  | String c r => if ends_authority c then s else drop_authority r
  end.

Fixpoint take_path (s : string) : string :=
  match s with
  | "" => ""
  | String c r => if ends_path c then "" else String c (take_path r)
  end.

Definition path_of (url : string) : option string :=
  rest ← after_scheme url; Some (take_path (drop_authority rest)).

End Url.

Import Base64 Uuid StrMethods.

(** ** Python values

    The values that [json.loads] and the Gradio client hand to the
    program: JSON-like data.  A dictionary keeps its entries in
    insertion order; its keys are strings, each bound once. *)

#[warnings="-register-all"]
Inductive pyval : Type :=
  | PyNone
  | PyBool (b : bool)
  | PyInt (z : Z)
  | PyFloat (f : spec_float)
  | PyStr (s : string)
  | PyList (items : list pyval)
  | PyDict (entries : list (string * pyval)).

(** Truth value of a Python object, as tested by [if], [not] and [and]. *)
Definition truthy (v : pyval) : bool :=
  match v with
  | PyNone => false
  | PyBool b => b
  | PyInt z => negb (z =? 0)%Z
  | PyFloat (S754_zero _) => false
  | PyFloat _ => true
  | PyStr "" => false
  | PyStr _ => true
  | PyList [] => false
  | PyList _ => true
  | PyDict [] => false
  | PyDict _ => true
  end.

(** [d.get(key)] on the entries of a dictionary. *)
Fixpoint dict_lookup (key : string) (entries : list (string * pyval)) : option pyval :=
  match entries with
  | [] => None
  | (k, v) :: rest => if String.eqb k key then Some v else dict_lookup key rest
  end.

(** ** Exceptions *)

Inductive exn : Type :=
  | HTTPException (status_code : Z) (detail : string)
  | ValueError (msg : string)
  | AttributeError
  | TypeError
  | OSError
  | ValidationError.

Inductive result (A : Type) : Type :=
  | Ok (a : A)
  | Raise (e : exn).
Arguments Ok {A} a.
Arguments Raise {A} e.

#[global] Instance result_ret : MRet result := fun A a => Ok a.
#[global] Instance result_bind : MBind result := fun A B f m =>
  match m with
  | Ok a => f a
  | Raise e => Raise e
  end.

(** [v.get(key, dflt)]: only a dictionary has the method. *)
Definition py_get (v : pyval) (key : string) (dflt : pyval) : result pyval :=
  match v with
  | PyDict entries => Ok (default dflt (dict_lookup key entries))
  | _ => Raise AttributeError
  end.

(** ** The file system *)

Inductive node : Type :=
  | File (content : list byte)
  | Directory.

(** ** The handler monad: a file system threaded through code that may raise *)

Definition io (A : Type) : Type :=
  gmap string node -> result A * gmap string node.

#[global] Instance io_ret : MRet io := fun A a fs => (Ok a, fs).
#[global] Instance io_bind : MBind io := fun A B f m fs =>
  match m fs with
  | (Ok a, fs') => f a fs'
  | (Raise e, fs') => (Raise e, fs')
  end.

Definition raise {A : Type} (e : exn) : io A := fun fs => (Raise e, fs).
Definition lift {A : Type} (r : result A) : io A := fun fs => (r, fs).
Definition get_fs : io (gmap string node) := fun fs => (Ok fs, fs).

(** [try: body except Exception as e: handler(e)].  Every exception of
    the model derives from [Exception], [HTTPException] included. *)
Definition try_except {A : Type} (body : io A) (handler : exn -> io A) : io A :=
  fun fs =>
    match body fs with
    | (Ok a, fs') => (Ok a, fs')
    | (Raise e, fs') => handler e fs'
    end.

Definition photos_dir : string := "photos".
Definition supported_extensions : list string := [".jpeg"; ".jpg"; ".png"; ".webp"].

(** [os.path.join(a, b)] of [posixpath]: an absolute second component
    replaces the first. *)
Definition os_path_join (a b : string) : string :=
  if startswith_slash b then b
  else if String.eqb a "" || endswith_slash a then a ++ b
  else a ++ "/" ++ b.

(** [os.path.exists(path)]: files and directories both exist. *)
Definition os_path_exists (fs : gmap string node) (path : string) : bool :=
  bool_decide (is_Some (fs !! path)).

(** The text of a path up to and including its last slash. *)
Fixpoint up_to_last_slash (s : string) : string :=
  match s with
  | "" => ""
  | String c r =>
      match up_to_last_slash r with
      | "" => if Ascii.eqb c "/" then "/" else ""
      | head => String c head
      end
  end.

(** [os.path.dirname(path)] of [posixpath]: the head up to the last
    slash, without its trailing slashes unless it is made of slashes
    only. *)
Definition os_path_dirname (path : string) : string :=
  let head := up_to_last_slash path in
  if all_chars (fun c => Ascii.eqb c "/") head then head else rstrip_slash head.

(** Whether the directory in which [open(path, "wb")] has to make the
    file is there.  The working directory and the root always are. *)
Definition parent_is_directory (fs : gmap string node) (path : string) : bool :=
  let parent := os_path_dirname path in
  if all_chars (fun c => Ascii.eqb c "/") parent then true
  else
    match fs !! parent with
    | Some Directory => true
    | _ => false
    end.

(** ** The remote services *)

Record completion_args : Type := {
  model : string;
  messages : list (string * string);      (* role, content *)
  stream : option bool;
  max_tokens : option Z;
  response_format : option string
}.

(** [litellm.completion(...)] followed by
    [response.choices[0].message.content]: either an exception, or the
    content, which may be [None]. *)
Inductive completion_outcome : Type :=
  | CompletionFailed
  | Completed (content : option string).

(** The handle made by [Client("multimodalart/Ip-Adapter-FaceID")]. *)
Record Client : Type := { space : string }.

Record predict_args : Type := {
  images : list string;
  prompt : string;
  negative_prompt : string;
  api_name : string
}.

(** [gradio_client.predict(...)]: what it returns or that it raises,
    and the files it has downloaded to its temporary directory by
    then. *)
Record predict_outcome : Type := {
  returned : result pyval;
  downloaded : gmap string (list byte)
}.

(** What becomes of [open(path, "wb")] followed by [write(data)] on a
    path that the file system allows to be written. *)
Inductive write_outcome : Type :=
  | Refused               (* [open] raises: permissions, a read-only or full disk *)
  | Torn (kept : nat)     (* the file is made or truncated, then [write] or the
                             closing flush raises with [kept] bytes in the file *)
  | Written.

(** Everything the program does not define itself.  [VALID_BOT_IDS] is
    the key set of [BOT_PROMPTS], imported from [bot_prompts.py], which
    is not among the sources; [json_loads] is [json.loads] ([None] for
    a [JSONDecodeError]); [py_repr] is [str()] of a value that is not a
    string; [coerce_str] is what pydantic makes of such a value in a
    field of type [str] ([None] when it rejects it); [completion],
    [predict] and [uuid4] are the answers this request gets from the
    completion model, the image generator and [uuid.uuid4()];
    [os_read] and [os_write] are the answers of the operating system:
    whether it lets a file that is there be opened and read, and what
    it does with a write. *)
Record Env : Type := {
  VALID_BOT_IDS : gset string;
  json_loads : string -> option pyval;
  py_repr : pyval -> string;
  coerce_str : pyval -> option string;
  completion : completion_args -> completion_outcome;
  predict : Client -> predict_args -> predict_outcome;
  uuid4 : UUID;
  os_read : string -> bool;
  os_write : string -> list byte -> write_outcome
}.

(** [open(path, "rb").read()].  Only a string names a file here: a
    number passed to [open] would be taken for a file descriptor, and
    descriptors are not part of the model. *)
Definition read_file (env : Env) (path : pyval) : io (list byte) :=
  fun fs =>
    match path with
    | PyStr p =>
        match fs !! p with
        | Some (File content) =>
            if os_read env p then (Ok content, fs) else (Raise OSError, fs)
        | Some Directory => (Raise OSError, fs)
        | None => (Raise OSError, fs)
        end
    | _ => (Raise TypeError, fs)
    end.

(** [with open(path, "wb") as f: f.write(data)].  [open] raises, and
    leaves everything as it was, when the directory of the path is
    missing, when the path names a directory, or when the operating
    system refuses; otherwise it makes the file or truncates the one
    that is there, without looking whether the name is taken.  A write
    that fails then leaves the file with the bytes that got through.
    [os.makedirs] made [static/images] when the module was loaded (line
    77); nothing keeps it there.  A file is named by the text of its
    path: links, [.] and [..] segments and the working directory are
    not part of the model, so that two spellings of one file are two
    keys. *)
Definition write_file (env : Env) (path : string) (data : list byte) : io unit :=
  fun fs =>
    if negb (parent_is_directory fs path) then (Raise OSError, fs)
    else
      match fs !! path with
      | Some Directory => (Raise OSError, fs)
      | _ =>
          match os_write env path data with
          | Refused => (Raise OSError, fs)
          | Torn kept => (Raise OSError, <[path := File (take kept data)]> fs)
          | Written => (Ok (), <[path := File data]> fs)
          end
      end.

(** [f"{v}"]. *)
Definition py_format (env : Env) (v : pyval) : string :=
  match v with
  | PyStr s => s
  | _ => py_repr env v
  end.

(** ** Request and response models *)

Record ImageGenerationRequest : Type := {
  bot_id : string;
  message : string;
  email : string;
  previous_conversation : option string;
  username : option string
}.

(** The field [bot_id] of the response is [resp_bot_id] here, and the
    fields of [ErrorDetail] are [err_status] and [err_message]: the
    names of record fields are global. *)
Record ImageGenerationResponse : Type := {
  resp_bot_id : string;
  image_url : string;
  image_base64 : string;
  status : string;
  emotion_context : list (string * string)
}.

Record ErrorDetail : Type := {
  err_status : string;
  err_message : string
}.

(** The incoming HTTP request, of which the endpoint reads
    [str(http_request.base_url)]. *)
Record Request : Type := { base_url : string }.

(** ** [ChatbotService] *)

Record ChatbotService : Type := {
  gradio_client : option Client;
  gemini_api_key : string
}.

(** [ChatbotService.__init__], given [os.environ.get("GEMINI_API_KEY")]. *)
Definition ChatbotService_init (environ_key : option string) : result ChatbotService :=
  match environ_key with
  | None | Some "" => Raise (ValueError "GEMINI_API_KEY environment variable is not set.")
  | Some key => Ok {| gradio_client := None; gemini_api_key := key |}
  end.

(** [initialize_gradio_client], given what constructing the client did. *)
Definition initialize_gradio_client (self : ChatbotService) (constructed : result Client)
  : ChatbotService :=
  match constructed with
  | Ok client => {| gradio_client := Some client; gemini_api_key := gemini_api_key self |}
  | Raise _ => {| gradio_client := None; gemini_api_key := gemini_api_key self |}
  end.

Definition gemini_model : string := "gemini/gemini-1.5-flash".

Definition reaction_args (request_data : ImageGenerationRequest) (bot_name : string)
  : completion_args :=
  {| model := gemini_model;
     messages :=
       [("system", "You are " ++ bot_name ++
                   ". Briefly react to the user's message in a way that reveals emotion.");
        ("user", message request_data)];
     stream := Some false;
     max_tokens := Some 50%Z;
     response_format := None |}.

(** The string built in the [except] branch of
    [get_bot_response_for_context]. *)
Definition fallback_reaction (bot_name message : string) : string :=
  bot_name ++ " is thinking about the message: '" ++ message ++ "'".

(** The value is [response.choices[0].message.content], which may be
    [None]; any exception gives the fallback string. *)
Definition get_bot_response_for_context (env : Env)
    (request_data : ImageGenerationRequest) (bot_name : string) : option string :=
  match completion env (reaction_args request_data bot_name) with
  | Completed content => content
  | CompletionFailed => Some (fallback_reaction bot_name (message request_data))
  end.

Definition indent : string := "        ".

(** The triple-quoted f-string of [extract_context]; a [text] that is
    [None] is formatted as [None]. *)
Definition context_prompt (text : option string) : string :=
  nl ++ indent ++ "Analyze the following text and describe the scene in simple terms." ++
  nl ++ indent ++ "Text: " ++ dq ++ default "None" text ++ dq ++
  nl ++ indent ++ "Respond ONLY with a JSON object with keys " ++
     dq ++ "emotion" ++ dq ++ ", " ++ dq ++ "location" ++ dq ++ ", and " ++
     dq ++ "action" ++ dq ++ "." ++
  nl ++ indent ++ "Example: {" ++
     dq ++ "emotion" ++ dq ++ ": " ++ dq ++ "happy and smiling" ++ dq ++ ", " ++
     dq ++ "location" ++ dq ++ ": " ++ dq ++ "at a bustling cafe" ++ dq ++ ", " ++
     dq ++ "action" ++ dq ++ ": " ++ dq ++ "sipping a coffee" ++ dq ++ "}" ++
  nl ++ indent.

Definition scene_args (text : option string) : completion_args :=
  {| model := gemini_model;
     messages := [("user", context_prompt text)];
     stream := None;
     max_tokens := None;
     response_format := Some "json_object" |}.

Definition default_context : pyval :=
  PyDict [("emotion", PyStr "neutral");
          ("location", PyStr "a room");
          ("action", PyStr "looking at the camera")].

(** [json.loads(None)] raises [TypeError], which the [except] branch
    catches like any other exception. *)
Definition extract_context (env : Env) (text : option string) : pyval :=
  match completion env (scene_args text) with
  | Completed (Some content) =>
      match json_loads env content with
      | Some parsed => parsed
      | None => default_context
      end
  | Completed None => default_context
  | CompletionFailed => default_context
  end.

(** The f-string [prompt_text]; its three [context.get] run in the
    order emotion, action, location. *)
Definition prompt_text (env : Env) (bot_name : string) (context : pyval) : result string :=
  emotion ← py_get context "emotion" (PyStr "neutral expression");
  action ← py_get context "action" (PyStr "looking at the camera");
  location ← py_get context "location" (PyStr "a neutral background");
  mret ("Close-up portrait of a person who looks like the reference image, with a " ++
        py_format env emotion ++ " expression, " ++
        py_format env action ++ ", at " ++ py_format env location ++ ". " ++
        "The person's name is " ++ bot_name ++
        ". Ultra-detailed, dslr quality, cinematic photo.").

Definition selfie_args (base_image_path prompt : string) : predict_args :=
  {| images := [base_image_path];
     prompt := prompt;
     negative_prompt := "nsfw, low quality, deformed, ugly";
     api_name := "/generate_image" |}.

(** [result and isinstance(result, list) and result[0].get("image")],
    evaluated to the value the code then reads as [result[0]["image"]];
    the test failing raises [ValueError], a first item without [get]
    raises [AttributeError]. *)
Definition checked_image (res : pyval) : result pyval :=
  if negb (truthy res) then
    Raise (ValueError "Invalid response from image generation service.")
  else
    match res with
    | PyList (PyDict entries :: _) =>
        let image := default PyNone (dict_lookup "image" entries) in
        if truthy image then Ok image
        else Raise (ValueError "Invalid response from image generation service.")
    | PyList (_ :: _) => Raise AttributeError
    | _ => Raise (ValueError "Invalid response from image generation service.")
    end.

(** [gradio_client.predict(...)] in the model: its downloads land in
    the file system, then it returns or raises. *)
Definition call_predict (env : Env) (client : Client) (args : predict_args) : io pyval :=
  fun fs =>
    let outcome := predict env client args in
    (returned outcome, (File <$> downloaded outcome) ∪ fs).

Definition unique_filename (env : Env) : string := uuid_str (uuid4 env) ++ ".png".
Definition output_path (filename : string) : string := "static/images/" ++ filename.
Definition relative_path (filename : string) : string := "/static/images/" ++ filename.

(** The [try] statement of [generate_and_save_selfie] after
    [await asyncio.to_thread(...)] has delivered [result]. *)
Definition save_result (env : Env) (res : pyval) : io (string * string) :=
  temp_image_path ← lift (checked_image res);
  image_bytes ← read_file env temp_image_path;
  let base64_encoded_image := b64encode image_bytes in
  let filename := unique_filename env in
  _ ← write_file env (output_path filename) image_bytes;
  mret (relative_path filename, base64_encoded_image).

(** The body of the [try] statement of [generate_and_save_selfie]. *)
Definition generate_and_save_body (env : Env) (client : Client)
    (base_image_path prompt : string) : io (string * string) :=
  res ← call_predict env client (selfie_args base_image_path prompt);
  save_result env res.

(** The client is tested and the prompt is built before the [try]
    statement: the 503 and an exception of [context.get] leave the
    function as they are, every exception of the body becomes the
    500. *)
Definition generate_and_save_selfie (self : ChatbotService) (env : Env)
    (bot_name base_image_path : string) (context : pyval) : io (string * string) :=
  match gradio_client self with
  | None => raise (HTTPException 503 "Image generation service is not available.")
  | Some client =>
      prompt ← lift (prompt_text env bot_name context);
      try_except
        (generate_and_save_body env client base_image_path prompt)
        (fun _ => raise (HTTPException 500 "Failed to generate the image internally."))
  end.

(** ** The endpoint *)

(** [os.path.join(photos_dir, f"{bot_id}{ext}")]. *)
Definition photo_path (bot_id ext : string) : string :=
  os_path_join photos_dir (bot_id ++ ext).

(** The [for ext in supported_extensions] loop with its [break]. *)
Fixpoint find_base_image (fs : gmap string node) (bot_id : string)
    (extensions : list string) : option string :=
  match extensions with
  | [] => None
  | ext :: rest =>
      let path := photo_path bot_id ext in
      if os_path_exists fs path then Some path
      else find_base_image fs bot_id rest
  end.

(** [bot_id.replace("_", " ").title()]. *)
Definition persona_name (bot_id : string) : string :=
  title (replace_underscore bot_id).

(** Validation of [emotion_context: Dict[str, str]] when the response
    model is built. *)
Definition validate_entry (env : Env) (entry : string * pyval) : option (string * string) :=
  match entry with
  | (k, PyStr s) => Some (k, s)
  | (k, v) => s ← coerce_str env v; Some (k, s)
  end.

Definition validate_context (env : Env) (context : pyval)
  : result (list (string * string)) :=
  match context with
  | PyDict entries =>
      match mapM (validate_entry env) entries with
      | Some validated => Ok validated
      | None => Raise ValidationError
      end
  | _ => Raise ValidationError
  end.

Definition unknown_bot_detail (bot_id : string) : string :=
  "Bot with id '" ++ bot_id ++ "' is not a valid bot.".

Definition missing_image_detail (bot_id : string) : string :=
  "Base image for bot '" ++ bot_id ++ "' not found in the '" ++ photos_dir ++
  "' folder. Please ensure the image file exists and has a matching name " ++
  "(e.g., delhi_mentor_male.jpeg).".

(** The endpoint.  [if not base_image_path] holds for [None] and for
    the empty string; building [ImageGenerationResponse] validates
    [emotion_context]. *)
Definition generate_image (self : ChatbotService) (env : Env)
    (request : ImageGenerationRequest) (http_request : Request)
  : io ImageGenerationResponse :=
  let bot_id := bot_id request in
  if negb (bool_decide (bot_id ∈ VALID_BOT_IDS env)) then
    raise (HTTPException 404 (unknown_bot_detail bot_id))
  else
    fs ← get_fs;
    match find_base_image fs bot_id supported_extensions with
    | None | Some "" => raise (HTTPException 404 (missing_image_detail bot_id))
    | Some base_image_path =>
        let bot_name := persona_name bot_id in
        let bot_response_text := get_bot_response_for_context env request bot_name in
        let context := extract_context env bot_response_text in
        '(image_path, image_base64) ←
          generate_and_save_selfie self env bot_name base_image_path context;
        let full_image_url := rstrip_slash (base_url http_request) ++ image_path in
        validated ← lift (validate_context env context);
        mret {| resp_bot_id := bot_id;
                image_url := full_image_url;
                image_base64 := image_base64;
                status := "success";
                emotion_context := validated |}
    end.

(** What the client of the API receives. *)
Inductive http_response : Type :=
  | Success (body : ImageGenerationResponse)            (* 200 *)
  | JSONResponse (status_code : Z) (content : ErrorDetail)
  | InternalServerError.                                (* 500, no JSON body *)

Definition http_exception_handler (status_code : Z) (detail : string) : http_response :=
  JSONResponse status_code {| err_status := "error"; err_message := detail |}.

(** [POST /v1/generate_image] as the application serves it: an
    [HTTPException] goes through [http_exception_handler], any other
    exception that leaves the endpoint becomes the server's plain 500. *)
Definition post_generate_image (self : ChatbotService) (env : Env)
    (request : ImageGenerationRequest) (http_request : Request)
    (fs : gmap string node) : http_response * gmap string node :=
  match generate_image self env request http_request fs with
  | (Ok body, fs') => (Success body, fs')
  | (Raise (HTTPException status_code detail), fs') =>
      (http_exception_handler status_code detail, fs')
  | (Raise _, fs') => (InternalServerError, fs')
  end.

Definition status_code_of (response : http_response) : Z :=
  match response with
  | Success _ => 200
  | JSONResponse status_code _ => status_code
  | InternalServerError => 500
  end.

(** ** Requests served concurrently

    The endpoint is a coroutine; the only point where it gives the
    event loop back is [await asyncio.to_thread(...)] around [predict].
    A request therefore runs in three steps, each without another
    handler in between: the code up to the call of [predict], the call
    itself (in a worker thread), and the code after it. *)

(** What a suspended handler holds. *)
Record awaiting : Type := {
  aw_client : Client;
  aw_args : predict_args;
  aw_context : pyval
}.

(** [generate_image] up to the call of [predict]; it reads the file
    system and changes nothing. *)
Definition before_await (self : ChatbotService) (env : Env)
    (request : ImageGenerationRequest) (fs : gmap string node) : result awaiting :=
  let bot_id := bot_id request in
  if negb (bool_decide (bot_id ∈ VALID_BOT_IDS env)) then
    Raise (HTTPException 404 (unknown_bot_detail bot_id))
  else
    match find_base_image fs bot_id supported_extensions with
    | None | Some "" => Raise (HTTPException 404 (missing_image_detail bot_id))
    | Some base_image_path =>
        let bot_name := persona_name bot_id in
        let bot_response_text := get_bot_response_for_context env request bot_name in
        let context := extract_context env bot_response_text in
        match gradio_client self with
        | None => Raise (HTTPException 503 "Image generation service is not available.")
        | Some client =>
            prompt ← prompt_text env bot_name context;
            mret {| aw_client := client;
                    aw_args := selfie_args base_image_path prompt;
                    aw_context := context |}
        end
    end.

(** [generate_image] from the return of [predict] on. *)
Definition after_await (env : Env) (request : ImageGenerationRequest)
    (http_request : Request) (aw : awaiting) (outcome : result pyval)
  : io ImageGenerationResponse :=
  '(image_path, image_base64) ←
    try_except
      (res ← lift outcome; save_result env res)
      (fun _ => raise (HTTPException 500 "Failed to generate the image internally."));
  let full_image_url := rstrip_slash (base_url http_request) ++ image_path in
  validated ← lift (validate_context env (aw_context aw));
  mret {| resp_bot_id := bot_id request;
          image_url := full_image_url;
          image_base64 := image_base64;
          status := "success";
          emotion_context := validated |}.

(** The answer made of what the endpoint returned or raised. *)
Definition respond (r : result ImageGenerationResponse) : http_response :=
  match r with
  | Ok body => Success body
  | Raise (HTTPException status_code detail) => http_exception_handler status_code detail
  | Raise _ => InternalServerError
  end.

Inductive phase : Type :=
  | NotStarted
  | Awaiting (aw : awaiting)
  | Returned (aw : awaiting) (outcome : result pyval)
  | Done (response : http_response).

(** One incoming request: its environment and its two arguments. *)
Record call : Type := {
  call_env : Env;
  call_request : ImageGenerationRequest;
  call_http : Request
}.

(** Two requests in flight, told apart by a boolean, over one file
    system. *)
Record server : Type := {
  files : gmap string node;
  phases : bool -> phase
}.

Definition set_phase (w : bool) (p : phase) (phases : bool -> phase) : bool -> phase :=
  fun w' => if Bool.eqb w' w then p else phases w'.

(** The event loop lets request [w] take its next step. *)
Definition advance (self : ChatbotService) (calls : bool -> call) (w : bool)
    (st : server) : server :=
  let c := calls w in
  match phases st w with
  | NotStarted =>
      match before_await self (call_env c) (call_request c) (files st) with
      | Ok aw => {| files := files st; phases := set_phase w (Awaiting aw) (phases st) |}
      | Raise e =>
          {| files := files st; phases := set_phase w (Done (respond (Raise e))) (phases st) |}
      end
  | Awaiting aw =>
      let '(outcome, fs) :=
        call_predict (call_env c) (aw_client aw) (aw_args aw) (files st) in
      {| files := fs; phases := set_phase w (Returned aw outcome) (phases st) |}
  | Returned aw outcome =>
      let '(r, fs) :=
        after_await (call_env c) (call_request c) (call_http c) aw outcome (files st) in
      {| files := fs; phases := set_phase w (Done (respond r)) (phases st) |}
  | Done _ => st
  end.

(** A schedule names, step after step, the request that moves. *)
Definition run (self : ChatbotService) (calls : bool -> call) (schedule : list bool)
    (st : server) : server :=
  foldl (fun st w => advance self calls w st) st schedule.

Definition idle (fs : gmap string node) : server :=
  {| files := fs; phases := fun _ => NotStarted |}.


(** ** A concrete world, for running the endpoint *)

Module Sample.

Definition image : list byte := [x89; x50; x4e; x47; x0d].
Definition tmp_path : string := "/tmp/gradio/3f2a/image.webp".

Definition fs : gmap string node :=
  <["photos/delhi_mentor_male.jpg" := File [xff; xd8]]>
    (<["static/images" := Directory]> ∅).

(** A scene description that lacks two of the three keys. *)
Definition scene : string :=
  "{" ++ dq ++ "emotion" ++ dq ++ ": " ++ dq ++ "happy" ++ dq ++ "}".

Definition gallery : pyval :=
  PyList [PyDict [("image", PyStr tmp_path); ("caption", PyNone)]].

Definition env_with (reaction scene_answer : completion_outcome) (u : UUID) : Env :=
  {| VALID_BOT_IDS := {["delhi_mentor_male"]};
     json_loads := fun s =>
       if String.eqb s scene then Some (PyDict [("emotion", PyStr "happy")]) else None;
     py_repr := fun _ => "?";
     coerce_str := fun _ => None;
     completion := fun args =>
       match response_format args with
       | Some _ => scene_answer
       | None => reaction
       end;
     predict := fun _ _ =>
       {| returned := Ok gallery; downloaded := {[ tmp_path := image ]} |};
     uuid4 := u;
     os_read := fun _ => true;
     os_write := fun _ _ => Written |}.

Definition uuid_a : UUID := 0x123e4567e89b42d3a456426614174000%N.
Definition uuid_b : UUID := 0x9b2d7c1e5f0a4c3e8d6b0a1b2c3d4e5f%N.

Definition env : Env :=
  env_with (Completed (Some "Oh no, that is rough!")) (Completed (Some scene)) uuid_a.

(** The scene call answers with text that is not JSON. *)
Definition env_malformed_scene : Env :=
  env_with (Completed (Some "Oh no, that is rough!")) (Completed (Some "Sure! Here it is")) uuid_a.

(** The reaction call raises. *)
Definition env_failed_reaction : Env :=
  env_with CompletionFailed (Completed (Some scene)) uuid_a.

(** A second request, which draws another UUID. *)
Definition env_b : Env :=
  env_with (Completed (Some "Oh no, that is rough!")) (Completed (Some scene)) uuid_b.

Definition client : Client := {| space := "multimodalart/Ip-Adapter-FaceID" |}.

Definition service : ChatbotService :=
  {| gradio_client := Some client; gemini_api_key := "key" |}.

(** The service after a failed [initialize_gradio_client]. *)
Definition unset_service : ChatbotService :=
  initialize_gradio_client service (Raise OSError).

Definition request : ImageGenerationRequest :=
  {| bot_id := "delhi_mentor_male";
     message := "I failed my exam";
     email := "user@example.org";
     previous_conversation := Some "";
     username := Some "User" |}.

Definition unknown_request : ImageGenerationRequest :=
  {| bot_id := "nobody";
     message := "hello";
     email := "user@example.org";
     previous_conversation := Some "";
     username := Some "User" |}.

Definition http : Request := {| base_url := "http://testserver/" |}.

(** Two requests in flight: the first draws [uuid_a], the second
    [uuid_b]. *)
Definition calls (w : bool) : call :=
  {| call_env := if w then env else env_b;
     call_request := request;
     call_http := http |}.

(** The same application reached below a path prefix. *)
Definition http_prefixed : Request := {| base_url := "http://testserver/api/" |}.

End Sample.

(** ** The rest of the application: setup, start and liveness *)

(** [s.split(",")]: the pieces between the commas, empty pieces
    kept; the empty string gives one empty piece. *)
Fixpoint split_comma (s : string) : list string :=
  match s with
  | "" => [""]
  | String c r =>
      if Ascii.eqb c "," then "" :: split_comma r
      else
        match split_comma r with
        | piece :: pieces => String c piece :: pieces
        | [] => [String c ""]
        end
  end.

(** [",".join(pieces)]. *)
Fixpoint join_comma (pieces : list string) : string :=
  match pieces with
  | [] => ""
  | [piece] => piece
  | piece :: rest => piece ++ "," ++ join_comma rest
  end.

(** [os.environ.get("CORS_ALLOWED_ORIGINS", "*").split(",")], given
    the value of the variable ([None] when it is not set). *)
Definition allowed_origins (environ_value : option string) : list string :=
  split_comma (default "*" environ_value).

(** The start-up half of [lifespan]: it awaits
    [initialize_gradio_client] and yields; [constructed] is what
    [Client(...)] did. *)
Definition lifespan_startup (service : ChatbotService) (constructed : result Client)
  : ChatbotService :=
  initialize_gradio_client service constructed.

(** [GET /]. *)
Definition root : string * string := ("healthy", "API is running.").

(** ** More concrete worlds *)

Module Cases.

(** The scene call answers with a JSON array. *)
Definition env_array_scene : Env :=
  {| VALID_BOT_IDS := VALID_BOT_IDS Sample.env;
     json_loads := fun _ => Some (PyList [PyStr "happy"]);
     py_repr := py_repr Sample.env;
     coerce_str := coerce_str Sample.env;
     completion := completion Sample.env;
     predict := predict Sample.env;
     uuid4 := uuid4 Sample.env;
     os_read := os_read Sample.env;
     os_write := os_write Sample.env |}.


(** The image generator raises. *)
Definition env_predict_raises : Env :=
  {| VALID_BOT_IDS := VALID_BOT_IDS Sample.env;
     json_loads := json_loads Sample.env;
     py_repr := py_repr Sample.env;
     coerce_str := coerce_str Sample.env;
     completion := completion Sample.env;
     predict := fun _ _ =>
       {| returned := Raise (ValueError "Could not fetch config");
          downloaded := ∅ |};
     uuid4 := uuid4 Sample.env;
     os_read := os_read Sample.env;
     os_write := os_write Sample.env |}.

(** The same request from another user. *)
Definition request_other_user : ImageGenerationRequest :=
  {| bot_id := "delhi_mentor_male";
     message := "I failed my exam";
     email := "someone@example.com";
     previous_conversation := None;
     username := Some "Someone" |}.

(** The disk fills up while the image is written: two bytes get
    through. *)
Definition env_torn_write : Env :=
  {| VALID_BOT_IDS := VALID_BOT_IDS Sample.env;
     json_loads := json_loads Sample.env;
     py_repr := py_repr Sample.env;
     coerce_str := coerce_str Sample.env;
     completion := completion Sample.env;
     predict := predict Sample.env;
     uuid4 := uuid4 Sample.env;
     os_read := os_read Sample.env;
     os_write := fun _ _ => Torn 2 |}.

(** The directory [static/images] has been removed since the module
    was loaded. *)
Definition fs_without_static : gmap string node :=
  <["photos/delhi_mentor_male.jpg" := File [xff; xd8]]> ∅.




Definition prompt_happy : string :=
  "Close-up portrait of a person who looks like the reference image, " ++
  "with a happy expression, looking at the camera, at a neutral background. " ++
  "The person's name is Delhi Mentor Male. " ++
  "Ultra-detailed, dslr quality, cinematic photo.".

End Cases.

(** * Properties *)

(** ** The embedding at work *)

Example b64encode_rfc4648 :
  map b64encode [[]; [x66]; [x66; x6f]; [x66; x6f; x6f]; [x66; x6f; x6f; x62]] =
  [""; "Zg=="; "Zm8="; "Zm9v"; "Zm9vYg=="].
Proof. reflexivity. Qed.

Example b64decode_rejects :
  map b64decode ["Zg="; "Z*9v"; "Zg==Zm9v"] = [None; None; None].
Proof. reflexivity. Qed.

Example uuid_str_sample :
  uuid_str Sample.uuid_a = "123e4567-e89b-42d3-a456-426614174000".
Proof. reflexivity. Qed.

Example persona_name_sample :
  persona_name "delhi_mentor_male" = "Delhi Mentor Male".
Proof. reflexivity. Qed.

Example rstrip_slash_sample :
  map rstrip_slash ["http://testserver/"; "http://testserver"; "a//b///"; "///"] =
  ["http://testserver"; "http://testserver"; "a//b"; ""].
Proof. reflexivity. Qed.

Example os_path_join_sample :
  map (os_path_join "photos") ["x.png"; "/x.png"] = ["photos/x.png"; "/x.png"].
Proof. reflexivity. Qed.

Example os_path_dirname_sample :
  map os_path_dirname ["static/images/a.png"; "a.png"; "/a.png"; "a//b"; "//a"] =
  ["static/images"; ""; "/"; "a"; "//"].
Proof. reflexivity. Qed.

(** A scene that parses to something other than an object: the
    exception of [context.get] is no [HTTPException] and reaches the
    client as the server's plain 500. *)
Example scene_not_an_object :
  let env :=
    {| VALID_BOT_IDS := VALID_BOT_IDS Sample.env;
       json_loads := fun _ => Some (PyList []);
       py_repr := py_repr Sample.env;
       coerce_str := coerce_str Sample.env;
       completion := completion Sample.env;
       predict := predict Sample.env;
       uuid4 := uuid4 Sample.env;
       os_read := os_read Sample.env;
       os_write := os_write Sample.env |} in
  (post_generate_image Sample.service env Sample.request Sample.http Sample.fs).1 =
  InternalServerError.
Proof. reflexivity. Qed.

(** An upstream answer without an image: the 500 of the [except]
    branch. *)
Example upstream_without_image :
  let env :=
    {| VALID_BOT_IDS := VALID_BOT_IDS Sample.env;
       json_loads := json_loads Sample.env;
       py_repr := py_repr Sample.env;
       coerce_str := coerce_str Sample.env;
       completion := completion Sample.env;
       predict := fun _ _ =>
         {| returned := Ok (PyList [PyDict [("caption", PyStr "none")]]);
            downloaded := ∅ |};
       uuid4 := uuid4 Sample.env;
       os_read := os_read Sample.env;
       os_write := os_write Sample.env |} in
  (post_generate_image Sample.service env Sample.request Sample.http Sample.fs).1 =
  JSONResponse 500
    {| err_status := "error";
       err_message := "Failed to generate the image internally." |}.
Proof. reflexivity. Qed.

(** ** Base64 *)

Section Base64Facts.

Lemma N_below_in_seq (n : nat) (i : N) :
  (i < N.of_nat n)%N -> In i (map N.of_nat (seq 0 n)).
Proof.
  intros Hi. apply in_map_iff. exists (N.to_nat i). split.
  - apply N2Nat.id.
  - apply in_seq. lia.
Qed.

Lemma index_of_char_of (i : N) :
  (i < 64)%N -> index_of (char_of i) = Some i /\ Ascii.eqb (char_of i) pad = false.
Proof.
  intros Hi.
  assert (Hall : forallb
            (fun j => match index_of (char_of j) with
                      | Some k => (k =? j)%N
                      | None => false
                      end && negb (Ascii.eqb (char_of j) pad))
            (map N.of_nat (seq 0 64)) = true) by (vm_compute; reflexivity).
  rewrite forallb_forall in Hall.
  specialize (Hall i (N_below_in_seq 64 i Hi)).
  apply andb_prop in Hall as [Hidx Hpad].
  split.
  - destruct (index_of (char_of i)) as [k|]; [|discriminate].
    apply N.eqb_eq in Hidx. now subst.
  - now apply negb_true_iff in Hpad.
Qed.

Lemma byte_below (b : byte) : (Byte.to_N b < 256)%N.
Proof. pose proof (Byte.to_N_bounded b). lia. Qed.

Ltac euclid := zify; Z.to_euclidean_division_equations; lia.

Lemma sextet1_bound x : (x < 256 -> sextet1 x < 64)%N.
Proof. unfold sextet1. intros. euclid. Qed.
Lemma sextet2_bound x y : (y < 256 -> sextet2 x y < 64)%N.
Proof. unfold sextet2. intros. euclid. Qed.
Lemma sextet3_bound y z : (z < 256 -> sextet3 y z < 64)%N.
Proof. unfold sextet3. intros. euclid. Qed.
Lemma sextet4_bound z : (sextet4 z < 64)%N.
Proof. unfold sextet4. euclid. Qed.

Lemma octet1_sextets x y :
  (x < 256 -> y < 256 -> octet1 (sextet1 x) (sextet2 x y) = x)%N.
Proof. unfold octet1, sextet1, sextet2. intros. euclid. Qed.
Lemma octet2_sextets x y z :
  (y < 256 -> z < 256 -> octet2 (sextet2 x y) (sextet3 y z) = y)%N.
Proof. unfold octet2, sextet2, sextet3. intros. euclid. Qed.
Lemma octet3_sextets y z :
  (z < 256 -> octet3 (sextet3 y z) (sextet4 z) = z)%N.
Proof. unfold octet3, sextet3, sextet4. intros. euclid. Qed.

(** Lists are consumed three octets at a time. *)
Lemma list_ind3 {A : Type} (P : list A -> Prop) :
  P [] -> (forall a, P [a]) -> (forall a b, P [a; b]) ->
  (forall a b c l, P l -> P (a :: b :: c :: l)) ->
  forall l, P l.
Proof.
  intros H0 H1 H2 H3.
  fix IH 1. intros [|a [|b [|c l]]].
  - exact H0.
  - apply H1.
  - apply H2.
  - apply H3, IH.
Qed.

Lemma decode_group (a b c : byte) (rest : string) :
  b64decode
    (String (char_of (sextet1 (Byte.to_N a)))
       (String (char_of (sextet2 (Byte.to_N a) (Byte.to_N b)))
          (String (char_of (sextet3 (Byte.to_N b) (Byte.to_N c)))
             (String (char_of (sextet4 (Byte.to_N c))) rest)))) =
  tl ← b64decode rest; Some (a :: b :: c :: tl).
Proof.
  pose proof (byte_below a) as Ha. pose proof (byte_below b) as Hb.
  pose proof (byte_below c) as Hc.
  destruct (index_of_char_of _ (sextet1_bound _ Ha)) as [E1 _].
  destruct (index_of_char_of _ (sextet2_bound (Byte.to_N a) _ Hb)) as [E2 _].
  destruct (index_of_char_of _ (sextet3_bound (Byte.to_N b) _ Hc)) as [E3 _].
  destruct (index_of_char_of _ (sextet4_bound (Byte.to_N c))) as [E4 P4].
  cbn [b64decode]. rewrite E1, E2, E3, E4, P4. cbn [mbind option_bind].
  rewrite octet1_sextets, octet2_sextets, octet3_sextets by assumption.
  rewrite !Byte.of_to_N. reflexivity.
Qed.

Lemma b64decode_b64encode (bs : list byte) : b64decode (b64encode bs) = Some bs.
Proof.
  induction bs as [|a|a b|a b c l IH] using list_ind3.
  - reflexivity.
  - pose proof (byte_below a) as Ha.
    destruct (index_of_char_of _ (sextet1_bound _ Ha)) as [E1 _].
    destruct (index_of_char_of (sextet2 (Byte.to_N a) 0)) as [E2 _];
      [apply sextet2_bound; lia|].
    cbn [b64encode b64decode]. rewrite E1, E2. cbn [mbind option_bind].
    rewrite octet1_sextets by (assumption || lia).
    rewrite Byte.of_to_N. reflexivity.
  - pose proof (byte_below a) as Ha. pose proof (byte_below b) as Hb.
    destruct (index_of_char_of _ (sextet1_bound _ Ha)) as [E1 _].
    destruct (index_of_char_of _ (sextet2_bound (Byte.to_N a) _ Hb)) as [E2 _].
    destruct (index_of_char_of (sextet3 (Byte.to_N b) 0)) as [E3 P3];
      [apply sextet3_bound; lia|].
    cbn [b64encode b64decode]. rewrite E1, E2. cbn [mbind option_bind].
    rewrite octet1_sextets by assumption. rewrite Byte.of_to_N.
    cbn [mbind option_bind]. rewrite Ascii.eqb_refl, P3, E3.
    cbn [mbind option_bind].
    rewrite octet2_sextets by (assumption || lia).
    rewrite Byte.of_to_N. reflexivity.
  - cbn [b64encode]. rewrite decode_group, IH. reflexivity.
Qed.

End Base64Facts.

(** ** Strings *)

Lemma append_nil (t : string) : "" ++ t = t.
Proof. reflexivity. Qed.

Lemma append_cons (c : ascii) (s t : string) : String c s ++ t = String c (s ++ t).
Proof. reflexivity. Qed.

Lemma append_empty_r (s : string) : s ++ "" = s.
Proof. induction s as [|c s IH]; [reflexivity|]. rewrite append_cons, IH. reflexivity. Qed.

Lemma append_assoc (s t r : string) : (s ++ t) ++ r = s ++ t ++ r.
Proof.
  induction s as [|c s IH]; [reflexivity|]. rewrite !append_cons, IH. reflexivity.
Qed.

Lemma append_length (s t : string) :
  String.length (s ++ t) = (String.length s + String.length t)%nat.
Proof.
  induction s as [|c s IH]; [reflexivity|]. rewrite append_cons. cbn. now rewrite IH.
Qed.

(** Slices of a concatenation: a slice that starts after the first
    part is a slice of the second, and the slice that covers the first
    part is that part. *)
Lemma substring_skip (n k m j : nat) (s t : string) :
  String.length s = n -> j = (n + k)%nat ->
  substring j m (s ++ t) = substring k m t.
Proof.
  intros Hn ->. revert n Hn. induction s as [|c s IH]; intros n Hn; cbn in Hn; subst n.
  - reflexivity.
  - rewrite append_cons. cbn [Nat.add substring]. now apply IH.
Qed.

Lemma substring_take (n : nat) (s t : string) :
  String.length s = n -> substring 0 n (s ++ t) = s.
Proof.
  intros <-. induction s as [|c s IH].
  - cbn. now destruct t.
  - rewrite append_cons. cbn [String.length substring]. now rewrite IH.
Qed.

Lemma all_chars_app (p : ascii -> bool) (s t : string) :
  all_chars p (s ++ t) = all_chars p s && all_chars p t.
Proof.
  induction s as [|c s IH]; [reflexivity|].
  rewrite append_cons. cbn [all_chars]. rewrite IH. apply andb_assoc.
Qed.

Lemma all_chars_impl (p q : ascii -> bool) (s : string) :
  (forall c, p c = true -> q c = true) ->
  all_chars p s = true -> all_chars q s = true.
Proof.
  intros Hpq. induction s as [|c s IH]; [reflexivity|]. cbn [all_chars].
  intros [Hc Hs]%andb_prop. rewrite (Hpq c Hc), (IH Hs). reflexivity.
Qed.

Lemma get_beyond (s : string) (n : nat) :
  (String.length s <= n)%nat -> String.get n s = None.
Proof.
  revert n. induction s as [|c s IH]; intros n Hn; [reflexivity|].
  cbn in Hn. destruct n as [|n]; [lia|]. cbn. apply IH. lia.
Qed.

(** *** [rstrip] and [endswith] *)

Lemma rstrip_slash_app_slash (s : string) : rstrip_slash (s ++ "/") = rstrip_slash s.
Proof.
  induction s as [|c s IH]; [reflexivity|].
  rewrite append_cons. cbn [rstrip_slash]. rewrite IH. reflexivity.
Qed.

Lemma rstrip_slash_id (s : string) : endswith_slash s = false -> rstrip_slash s = s.
Proof.
  induction s as [|c s IH]; [reflexivity|]. cbn [endswith_slash rstrip_slash].
  destruct s as [|c' s].
  - intros ->. reflexivity.
  - intros H. rewrite (IH H). reflexivity.
Qed.

Lemma endswith_slash_app (s t : string) :
  t <> "" -> endswith_slash (s ++ t) = endswith_slash t.
Proof.
  intros Ht. induction s as [|c s IH]; [reflexivity|].
  rewrite append_cons. cbn [endswith_slash]. rewrite IH.
  destruct (s ++ t) eqn:E; [|reflexivity].
  destruct s; [rewrite append_nil in E; contradiction | discriminate E].
Qed.

Lemma endswith_slash_all (s : string) :
  all_chars (is_not "/") s = true -> endswith_slash s = false.
Proof.
  induction s as [|c s IH]; [reflexivity|]. cbn [all_chars endswith_slash].
  intros [Hc Hs]%andb_prop. destruct s as [|c' s].
  - unfold is_not in Hc. now apply negb_true_iff in Hc.
  - exact (IH Hs).
Qed.

(** *** Reading the path of a URL *)

Lemma after_scheme_app (scheme rest : string) :
  all_chars (is_not ":") scheme = true ->
  Url.after_scheme (scheme ++ "://" ++ rest) = Some rest.
Proof.
  induction scheme as [|c s IH]; [reflexivity|].
  cbn [all_chars]. intros [Hc Hs]%andb_prop. specialize (IH Hs).
  unfold is_not in Hc. apply negb_true_iff in Hc.
  rewrite append_cons. cbn [Url.after_scheme].
  destruct s as [|c1 [|c2 s]].
  - rewrite append_nil in *. cbn. rewrite Hc. exact IH.
  - rewrite append_cons, append_nil in *.
    change ("://" ++ rest) with (String ":" (String "/" (String "/" rest))) in *.
    rewrite Hc. exact IH.
  - rewrite !append_cons in *. rewrite Hc. exact IH.
Qed.

Lemma drop_authority_app (netloc rest : string) :
  all_chars (fun c => negb (Url.ends_authority c)) netloc = true ->
  Url.drop_authority (netloc ++ "/" ++ rest) = "/" ++ rest.
Proof.
  induction netloc as [|c s IH]; [reflexivity|].
  cbn [all_chars]. intros [Hc Hs]%andb_prop. apply negb_true_iff in Hc.
  rewrite append_cons. cbn [Url.drop_authority]. rewrite Hc. exact (IH Hs).
Qed.

Lemma take_path_all (s : string) :
  all_chars (fun c => negb (Url.ends_path c)) s = true -> Url.take_path s = s.
Proof.
  induction s as [|c s IH]; [reflexivity|].
  cbn [all_chars]. intros [Hc Hs]%andb_prop. apply negb_true_iff in Hc.
  cbn [Url.take_path]. rewrite Hc, (IH Hs). reflexivity.
Qed.

(** ** UUIDs *)

Section UuidFacts.

Lemma digit_of_hex_digit (d : N) :
  (d < 16)%N -> digit_of (hex_digit d) = Some d.
Proof.
  intros Hd.
  assert (Hall : forallb
            (fun j => match digit_of (hex_digit j) with
                      | Some k => (k =? j)%N
                      | None => false
                      end)
            (map N.of_nat (seq 0 16)) = true) by (vm_compute; reflexivity).
  rewrite forallb_forall in Hall.
  specialize (Hall d (N_below_in_seq 16 d Hd)).
  destruct (digit_of (hex_digit d)) as [k|]; [|discriminate].
  apply N.eqb_eq in Hall. now subst.
Qed.



Lemma hex_digits_length (w : nat) (n : N) : String.length (hex_digits w n) = w.
Proof. induction w as [|w IH]; cbn; [reflexivity|]. now rewrite IH. Qed.

Lemma hex_digits_add (a b : nat) (n : N) :
  hex_digits (a + b) n = hex_digits a (n / 16 ^ N.of_nat b) ++ hex_digits b n.
Proof.
  induction a as [|a IH]; [reflexivity|].
  cbn [Nat.add hex_digits]. rewrite append_cons, IH. do 2 f_equal.
  rewrite N.Div0.div_div, <- N.pow_add_r. do 3 f_equal. lia.
Qed.

(** The text of a UUID, field by field. *)
Lemma uuid_str_fields (u : UUID) :
  uuid_str u =
  hex_digits 8 (u / 16 ^ 24) ++ "-" ++ hex_digits 4 (u / 16 ^ 20) ++ "-" ++
  hex_digits 4 (u / 16 ^ 16) ++ "-" ++ hex_digits 4 (u / 16 ^ 12) ++ "-" ++
  hex_digits 12 u.
Proof.
  unfold uuid_str.
  change 32%nat with (8 + (4 + (4 + (4 + 12))))%nat.
  rewrite (hex_digits_add 8), (hex_digits_add 4 (4 + (4 + 12))),
    (hex_digits_add 4 (4 + 12)), (hex_digits_add 4 12).
  change (N.of_nat (4 + (4 + (4 + 12)))) with 24%N.
  change (N.of_nat (4 + (4 + 12))) with 20%N.
  change (N.of_nat (4 + 12)) with 16%N.
  change (N.of_nat 12) with 12%N.
  set (A := hex_digits 8 _). set (B := hex_digits 4 (u / 16 ^ 20)).
  set (C := hex_digits 4 (u / 16 ^ 16)). set (D := hex_digits 4 (u / 16 ^ 12)).
  set (E := hex_digits 12 u).
  assert (HA : String.length A = 8%nat) by apply hex_digits_length.
  assert (HB : String.length B = 4%nat) by apply hex_digits_length.
  assert (HC : String.length C = 4%nat) by apply hex_digits_length.
  assert (HD : String.length D = 4%nat) by apply hex_digits_length.
  assert (HE : String.length E = 12%nat) by apply hex_digits_length.
  rewrite (substring_take 8 A) by exact HA.
  rewrite (substring_skip 8 0 4 8 A), (substring_take 4 B) by (exact HA || exact HB || reflexivity).
  rewrite (substring_skip 8 4 4 12 A), (substring_skip 4 0 4 4 B), (substring_take 4 C)
    by (exact HA || exact HB || exact HC || reflexivity).
  rewrite (substring_skip 8 8 4 16 A), (substring_skip 4 4 4 8 B),
    (substring_skip 4 0 4 4 C), (substring_take 4 D)
    by (exact HA || exact HB || exact HC || exact HD || reflexivity).
  rewrite (substring_skip 8 12 12 20 A), (substring_skip 4 8 12 12 B),
    (substring_skip 4 4 12 8 C), (substring_skip 4 0 12 4 D)
    by (exact HA || exact HB || exact HC || exact HD || reflexivity).
  rewrite <- (append_empty_r E) at 1.
  rewrite (substring_take 12 E) by exact HE.
  reflexivity.
Qed.




(** Every digit is one of [0-9a-f], also for an argument above 15. *)
Lemma hex_digit_is_digit (d : N) : exists k, digit_of (hex_digit d) = Some k.
Proof.
  destruct (N.lt_ge_cases d 16) as [Hd|Hd].
  - exists d. now apply digit_of_hex_digit.
  - exists 0%N. unfold hex_digit. rewrite get_beyond; [reflexivity|]. cbn. lia.
Qed.

Lemma hex_digit_is_not (x : ascii) (d : N) :
  digit_of x = None -> is_not x (hex_digit d) = true.
Proof.
  intros Hx. unfold is_not. apply negb_true_iff.
  destruct (Ascii.eqb_spec (hex_digit d) x) as [E|]; [|reflexivity].
  destruct (hex_digit_is_digit d) as [k Hk]. congruence.
Qed.

Lemma all_chars_hex_digits (p : ascii -> bool) (w : nat) (n : N) :
  (forall d, p (hex_digit d) = true) -> all_chars p (hex_digits w n) = true.
Proof.
  intros Hp. induction w as [|w IH]; [reflexivity|].
  cbn [hex_digits all_chars]. now rewrite Hp, IH.
Qed.

Lemma all_chars_uuid_str (p : ascii -> bool) (u : UUID) :
  (forall d, p (hex_digit d) = true) -> p "-"%char = true ->
  all_chars p (uuid_str u) = true.
Proof.
  intros Hp Hh. rewrite uuid_str_fields, !all_chars_app.
  rewrite !all_chars_hex_digits by assumption. cbn [all_chars]. now rewrite Hh.
Qed.

Lemma uuid_str_length (u : UUID) : String.length (uuid_str u) = 36%nat.
Proof.
  rewrite uuid_str_fields, !append_length, !hex_digits_length. reflexivity.
Qed.

End UuidFacts.

(** ** The endpoint, step by step *)

Lemma photo_path_nonempty (b ext : string) : photo_path b ext <> "".
Proof.
  unfold photo_path, os_path_join.
  destruct (startswith_slash (b ++ ext)) eqn:Hs.
  - destruct (b ++ ext); [discriminate Hs | discriminate].
  - cbn. discriminate.
Qed.

Lemma find_base_image_nonempty fs b exts p :
  find_base_image fs b exts = Some p -> p <> "".
Proof.
  induction exts as [|ext rest IH]; cbn; [discriminate|].
  destruct (os_path_exists fs (photo_path b ext)).
  - intros [= <-]. apply photo_path_nonempty.
  - exact IH.
Qed.

Lemma find_base_image_none fs b exts :
  find_base_image fs b exts = None <->
  forall ext, In ext exts -> os_path_exists fs (photo_path b ext) = false.
Proof.
  induction exts as [|ext rest IH]; cbn.
  - split; [intros _ ? [] | reflexivity].
  - destruct (os_path_exists fs (photo_path b ext)) eqn:E.
    + split; [discriminate|]. intros H. specialize (H ext (or_introl eq_refl)). congruence.
    + rewrite IH. split.
      * intros H e [<-|Hin]; auto.
      * intros H e Hin. apply H. now right.
Qed.

Lemma find_base_image_first fs b exts p :
  find_base_image fs b exts = Some p <->
  exists (i : nat) (ext : string),
    exts !! i = Some ext /\ p = photo_path b ext /\
    os_path_exists fs p = true /\
    forall (j : nat) (ext' : string),
      (j < i)%nat -> exts !! j = Some ext' ->
      os_path_exists fs (photo_path b ext') = false.
Proof.
  revert p. induction exts as [|ext rest IH]; intros p; cbn [find_base_image].
  - split; [discriminate|]. intros (i & e & Hi & _). destruct i; discriminate Hi.
  - destruct (os_path_exists fs (photo_path b ext)) eqn:E.
    + split.
      * intros [= <-]. exists 0%nat, ext. repeat split; auto. intros j e Hj. lia.
      * intros (i & e & Hi & -> & Hex & Hmin). destruct i as [|i].
        -- cbn in Hi. congruence.
        -- specialize (Hmin 0%nat ext). cbn in Hmin.
           rewrite Hmin in E by (lia || reflexivity). discriminate.
    + rewrite IH. split.
      * intros (i & e & Hi & -> & Hex & Hmin). exists (S i), e. repeat split; auto.
        intros [|j] e' Hj Hl; cbn in Hl; [congruence|]. apply (Hmin j); [lia|assumption].
      * intros (i & e & Hi & -> & Hex & Hmin). destruct i as [|i].
        -- cbn in Hi. congruence.
        -- exists i, e. repeat split; auto.
           intros j e' Hj Hl. apply (Hmin (S j)); [lia|assumption].
Qed.

Section Endpoint.

Variables (self : ChatbotService) (env : Env).
Variables (request : ImageGenerationRequest) (http_request : Request).
Variable fs : gmap string node.

Lemma generate_image_unknown_bot :
  bot_id request ∉ VALID_BOT_IDS env ->
  generate_image self env request http_request fs =
  (Raise (HTTPException 404 (unknown_bot_detail (bot_id request))), fs).
Proof.
  intros H. unfold generate_image. rewrite bool_decide_false by assumption. reflexivity.
Qed.

Lemma generate_image_missing_image :
  bot_id request ∈ VALID_BOT_IDS env ->
  find_base_image fs (bot_id request) supported_extensions = None ->
  generate_image self env request http_request fs =
  (Raise (HTTPException 404 (missing_image_detail (bot_id request))), fs).
Proof.
  intros H Hnone. unfold generate_image. rewrite bool_decide_true by assumption.
  cbn [negb]. unfold mbind, io_bind, get_fs. rewrite Hnone. reflexivity.
Qed.

(** Once both checks have passed, the request is the two completion
    calls followed by the image generation and the response model. *)
Lemma generate_image_validated (base_image_path : string) :
  bot_id request ∈ VALID_BOT_IDS env ->
  find_base_image fs (bot_id request) supported_extensions = Some base_image_path ->
  generate_image self env request http_request fs =
  (let bot_name := persona_name (bot_id request) in
   let context :=
     extract_context env (get_bot_response_for_context env request bot_name) in
   '(image_path, image_base64) ←
     generate_and_save_selfie self env bot_name base_image_path context;
   validated ← lift (validate_context env context);
   mret {| resp_bot_id := bot_id request;
           image_url := rstrip_slash (base_url http_request) ++ image_path;
           image_base64 := image_base64;
           status := "success";
           emotion_context := validated |}) fs.
Proof.
  intros H Hfind. unfold generate_image. rewrite bool_decide_true by assumption.
  cbn [negb]. unfold mbind at 1, io_bind at 1, get_fs at 1. rewrite Hfind.
  pose proof (find_base_image_nonempty _ _ _ _ Hfind) as Hne.
  destruct base_image_path; [contradiction|reflexivity].
Qed.

End Endpoint.

(** *** Saving a file *)

Lemma up_to_last_slash_no_slash (f : string) :
  all_chars (is_not "/") f = true -> up_to_last_slash f = "".
Proof.
  induction f as [|c f IH]; [reflexivity|]. cbn [all_chars up_to_last_slash].
  intros [Hc Hf]%andb_prop. rewrite (IH Hf).
  unfold is_not in Hc. apply negb_true_iff in Hc. now rewrite Hc.
Qed.

Lemma up_to_last_slash_app (a f : string) :
  all_chars (is_not "/") f = true -> up_to_last_slash (a ++ "/" ++ f) = a ++ "/".
Proof.
  intros Hf. induction a as [|c a IH].
  - change ("" ++ "/" ++ f) with (String "/" f). cbn [up_to_last_slash].
    now rewrite (up_to_last_slash_no_slash f Hf).
  - change (String c a ++ "/" ++ f) with (String c (a ++ "/" ++ f)).
    cbn [up_to_last_slash]. rewrite IH. destruct a; reflexivity.
Qed.

Lemma unique_filename_no_slash (env : Env) :
  all_chars (is_not "/") (unique_filename env) = true.
Proof.
  unfold unique_filename. rewrite all_chars_app, all_chars_uuid_str; [reflexivity| |reflexivity].
  intros d. now apply hex_digit_is_not.
Qed.

(** The directory of every saved image is [static/images]. *)
Lemma os_path_dirname_output_path (env : Env) :
  os_path_dirname (output_path (unique_filename env)) = "static/images".
Proof.
  unfold os_path_dirname, output_path.
  change ("static/images/" ++ unique_filename env)
    with ("static/images" ++ "/" ++ unique_filename env).
  rewrite up_to_last_slash_app by apply unique_filename_no_slash. reflexivity.
Qed.

Lemma parent_is_directory_output_path (env : Env) (fs : gmap string node) :
  parent_is_directory fs (output_path (unique_filename env)) =
  match fs !! "static/images" with
  | Some Directory => true
  | _ => false
  end.
Proof. unfold parent_is_directory. now rewrite os_path_dirname_output_path. Qed.

(** The three ways in which a write ends. *)
Lemma write_file_effect (env : Env) (path : string) (data : list byte)
    (fs fs' : gmap string node) (r : result unit) :
  write_file env path data fs = (r, fs') ->
  (r = Raise OSError /\ fs' = fs /\
   (parent_is_directory fs path = false \/ fs !! path = Some Directory \/
    os_write env path data = Refused)) \/
  (exists kept : nat,
     r = Raise OSError /\ fs' = <[path := File (take kept data)]> fs /\
     os_write env path data = Torn kept) \/
  (r = Ok () /\ fs' = <[path := File data]> fs /\
   parent_is_directory fs path = true /\ fs !! path <> Some Directory /\
   os_write env path data = Written).
Proof.
  unfold write_file.
  destruct (parent_is_directory fs path) eqn:Hparent; cbn [negb].
  2:{ intros [= <- <-]. left. auto. }
  assert (Hgo : fs !! path <> Some Directory ->
            match os_write env path data with
            | Refused => (Raise OSError, fs)
            | Torn kept => (Raise OSError, <[path := File (take kept data)]> fs)
            | Written => (Ok (), <[path := File data]> fs)
            end = (r, fs') ->
            (r = Raise OSError /\ fs' = fs /\
             (true = false \/ fs !! path = Some Directory \/
              os_write env path data = Refused)) \/
            (exists kept : nat,
               r = Raise OSError /\ fs' = <[path := File (take kept data)]> fs /\
               os_write env path data = Torn kept) \/
            (r = Ok () /\ fs' = <[path := File data]> fs /\
             true = true /\ fs !! path <> Some Directory /\
             os_write env path data = Written)).
  { intros Hnodir. destruct (os_write env path data) as [|kept|]; intros [= <- <-].
    - left. auto.
    - right. left. exists kept. auto.
    - right. right. auto. }
  destruct (fs !! path) as [[old|]|] eqn:Hpath.
  - apply Hgo. discriminate.
  - intros [= <- <-]. left. auto.
  - apply Hgo. discriminate.
Qed.

Lemma write_file_written (env : Env) (path : string) (data : list byte)
    (fs : gmap string node) :
  parent_is_directory fs path = true ->
  fs !! path <> Some Directory ->
  write_file env path data fs =
  match os_write env path data with
  | Refused => (Raise OSError, fs)
  | Torn kept => (Raise OSError, <[path := File (take kept data)]> fs)
  | Written => (Ok (), <[path := File data]> fs)
  end.
Proof.
  intros Hparent Hnodir. unfold write_file. rewrite Hparent. cbn [negb].
  destruct (fs !! path) as [[old|]|]; [reflexivity|contradiction|reflexivity].
Qed.

Section Selfie.

Variables (self : ChatbotService) (env : Env).
Variables (bot_name base_image_path : string) (context : pyval).
Variable fs : gmap string node.

Lemma generate_and_save_selfie_unset :
  gradio_client self = None ->
  generate_and_save_selfie self env bot_name base_image_path context fs =
  (Raise (HTTPException 503 "Image generation service is not available."), fs).
Proof. intros H. unfold generate_and_save_selfie. rewrite H. reflexivity. Qed.

(** A call that returns has read the image that [predict] pointed to
    and has written exactly one file. *)
Lemma generate_and_save_selfie_ok (image_path image_base64 : string)
    (fs' : gmap string node) :
  generate_and_save_selfie self env bot_name base_image_path context fs =
    (Ok (image_path, image_base64), fs') ->
  exists (client : Client) (args : predict_args) (tmp : string)
         (image_bytes : list byte),
    gradio_client self = Some client /\
    images args = [base_image_path] /\
    ((File <$> downloaded (predict env client args)) ∪ fs) !! tmp =
      Some (File image_bytes) /\
    image_path = relative_path (unique_filename env) /\
    image_base64 = b64encode image_bytes /\
    fs' = <[output_path (unique_filename env) := File image_bytes]>
            ((File <$> downloaded (predict env client args)) ∪ fs).
Proof.
  unfold generate_and_save_selfie.
  destruct (gradio_client self) as [client|]; [|discriminate].
  unfold mbind at 1, io_bind at 1, lift at 1.
  destruct (prompt_text env bot_name context) as [prompt|e]; [|discriminate].
  unfold try_except, generate_and_save_body.
  unfold mbind at 1, io_bind at 1, call_predict.
  set (args := selfie_args base_image_path prompt).
  set (fs1 := (File <$> downloaded (predict env client args)) ∪ fs).
  destruct (returned (predict env client args)) as [res|e]; [|discriminate].
  unfold save_result. unfold mbind at 1, io_bind at 1, lift at 1.
  destruct (checked_image res) as [tmp|e]; [|discriminate].
  unfold mbind at 1, io_bind at 1, read_file.
  destruct tmp as [| | | |tmp| |]; try discriminate.
  destruct (fs1 !! tmp) as [[image_bytes|]|] eqn:Htmp; try discriminate.
  destruct (os_read env tmp); [|discriminate].
  unfold mbind at 1, io_bind at 1.
  destruct (write_file env _ image_bytes fs1) as [r fs2] eqn:Hwrite.
  apply write_file_effect in Hwrite
    as [(-> & _)|[(kept & -> & _)|(-> & -> & _)]]; try discriminate.
  cbn. intros [= <- <- <-].
  exists client, args, tmp, image_bytes. repeat split; assumption.
Qed.

End Selfie.

Section Served.

Variables (self : ChatbotService) (env : Env).
Variables (request : ImageGenerationRequest) (http_request : Request).
Variable fs : gmap string node.

(** What a 200 answer tells about the run that produced it. *)
Lemma post_generate_image_success (body : ImageGenerationResponse)
    (fs' : gmap string node) :
  post_generate_image self env request http_request fs = (Success body, fs') ->
  exists (base_image_path : string) (client : Client) (args : predict_args)
         (tmp : string) (image_bytes : list byte),
    bot_id request ∈ VALID_BOT_IDS env /\
    find_base_image fs (bot_id request) supported_extensions = Some base_image_path /\
    gradio_client self = Some client /\
    images args = [base_image_path] /\
    ((File <$> downloaded (predict env client args)) ∪ fs) !! tmp =
      Some (File image_bytes) /\
    resp_bot_id body = bot_id request /\
    image_url body =
      rstrip_slash (base_url http_request) ++ relative_path (unique_filename env) /\
    image_base64 body = b64encode image_bytes /\
    status body = "success" /\
    validate_context env
      (extract_context env
         (get_bot_response_for_context env request (persona_name (bot_id request)))) =
      Ok (emotion_context body) /\
    fs' = <[output_path (unique_filename env) := File image_bytes]>
            ((File <$> downloaded (predict env client args)) ∪ fs).
Proof.
  unfold post_generate_image.
  destruct (decide (bot_id request ∈ VALID_BOT_IDS env)) as [Hin|Hout].
  2:{ rewrite generate_image_unknown_bot by assumption. discriminate. }
  destruct (find_base_image fs (bot_id request) supported_extensions)
    as [base_image_path|] eqn:Hfind.
  2:{ rewrite generate_image_missing_image by assumption. discriminate. }
  rewrite (generate_image_validated _ _ _ _ _ base_image_path) by assumption.
  cbv zeta. unfold mbind at 1, io_bind at 1.
  destruct (generate_and_save_selfie _ _ _ _ _ fs) as [[[image_path b64]|e] fs1] eqn:Hgen.
  2:{ destruct e; discriminate. }
  apply generate_and_save_selfie_ok in Hgen
    as (client & args & tmp & image_bytes & Hc & Himg & Htmp & -> & -> & ->).
  unfold mbind, io_bind, lift, mret, io_ret.
  destruct (validate_context _ _) as [validated|e] eqn:Hval.
  2:{ destruct e; discriminate. }
  intros [= <- <-].
  exists base_image_path, client, args, tmp, image_bytes.
  repeat split; try assumption; reflexivity.
Qed.

End Served.

(** A dictionary of strings passes the response model unchanged. *)
Lemma validate_context_strings (env : Env) (strings : list (string * string)) :
  validate_context env (PyDict (prod_map id PyStr <$> strings)) = Ok strings.
Proof.
  unfold validate_context.
  assert (E : mapM (validate_entry env) (prod_map id PyStr <$> strings) = Some strings).
  { induction strings as [|[k v] l IH]; [reflexivity|].
    cbn. cbn in IH. rewrite IH. reflexivity. }
  now rewrite E.
Qed.

(** The response model keeps the keys of an object, in their order, and
    every value that is a string; it adds no entry. *)
Lemma validate_context_entries (env : Env) (entries : list (string * pyval))
    (validated : list (string * string)) :
  validate_context env (PyDict entries) = Ok validated ->
  Forall2 (fun entry kept => kept.1 = entry.1 /\ forall s, entry.2 = PyStr s -> kept.2 = s)
    entries validated.
Proof.
  unfold validate_context.
  destruct (mapM (validate_entry env) entries) as [l|] eqn:E; [|discriminate].
  intros [= <-]. apply mapM_Some in E. eapply Forall2_impl; [exact E|].
  intros [k v] [k' s'] H. unfold validate_entry in H.
  destruct v; cbn in H;
    try (destruct (coerce_str env _); cbn in H; [|discriminate H]);
    injection H as <- <-; (split; [reflexivity|]); intros s0 Hs;
    try discriminate Hs.
  now injection Hs as ->.
Qed.

(** What [save_result] does once the image that [predict] points to
    has been read: the write decides. *)
Lemma save_result_read (env : Env) (items : list (string * pyval)) (others : list pyval)
    (tmp : string) (image_bytes : list byte) (fs : gmap string node) :
  dict_lookup "image" items = Some (PyStr tmp) ->
  tmp <> "" ->
  fs !! tmp = Some (File image_bytes) ->
  os_read env tmp = true ->
  save_result env (PyList (PyDict items :: others)) fs =
  match write_file env (output_path (unique_filename env)) image_bytes fs with
  | (Ok _, fs') => (Ok (relative_path (unique_filename env), b64encode image_bytes), fs')
  | (Raise e, fs') => (Raise e, fs')
  end.
Proof.
  intros Himage Htmp Hfile Hread.
  assert (Hcheck : checked_image (PyList (PyDict items :: others)) = Ok (PyStr tmp)).
  { unfold checked_image. cbn [truthy negb]. rewrite Himage.
    change (default PyNone (Some (PyStr tmp))) with (PyStr tmp).
    destruct tmp; [contradiction|reflexivity]. }
  unfold save_result. unfold mbind at 1, io_bind at 1, lift at 1. rewrite Hcheck.
  unfold mbind at 1, io_bind at 1, read_file. rewrite Hfile, Hread.
  unfold mbind at 1, io_bind at 1.
  destruct (write_file env _ image_bytes fs) as [[[]|e] fs']; reflexivity.
Qed.

(** The saved name never ends the path of a URL early. *)
Lemma relative_path_has_no_query (env : Env) :
  all_chars (fun c => negb (Url.ends_path c)) (relative_path (unique_filename env)) = true.
Proof.
  unfold relative_path, unique_filename. rewrite !all_chars_app.
  rewrite all_chars_uuid_str; [reflexivity| |reflexivity].
  intros d. unfold Url.ends_path. rewrite negb_orb.
  pose proof (hex_digit_is_not "?" d eq_refl) as H1.
  pose proof (hex_digit_is_not "#" d eq_refl) as H2.
  unfold is_not in H1, H2. now rewrite H1, H2.
Qed.

(** ** Concurrent requests *)

(** The endpoint is its three steps run one after the other. *)
Lemma generate_image_staged
    (self : ChatbotService) (env : Env) (request : ImageGenerationRequest)
    (http_request : Request) (fs : gmap string node) :
  generate_image self env request http_request fs =
  match before_await self env request fs with
  | Raise e => (Raise e, fs)
  | Ok aw =>
      let '(outcome, fs1) := call_predict env (aw_client aw) (aw_args aw) fs in
      after_await env request http_request aw outcome fs1
  end.
Proof.
  unfold generate_image, before_await.
  destruct (negb (bool_decide (bot_id request ∈ VALID_BOT_IDS env))); [reflexivity|].
  unfold mbind at 1, io_bind at 1, get_fs at 1.
  destruct (find_base_image fs (bot_id request) supported_extensions) as [[|c p]|];
    [reflexivity| |reflexivity].
  unfold generate_and_save_selfie.
  destruct (gradio_client self) as [client|]; [|reflexivity].
  unfold mbind at 1, io_bind at 1. unfold mbind at 1, io_bind at 1, lift at 1.
  destruct (prompt_text env _ _) as [prompt|e]; [|reflexivity].
  cbn [mbind result_bind mret result_ret aw_client aw_args aw_context].
  unfold after_await, generate_and_save_body, try_except, call_predict.
  unfold mbind, io_bind, lift.
  destruct (returned (predict env client _)) as [res|e]; reflexivity.
Qed.

Lemma post_generate_image_respond
    (self : ChatbotService) (env : Env) (request : ImageGenerationRequest)
    (http_request : Request) (fs : gmap string node) :
  post_generate_image self env request http_request fs =
  (respond (generate_image self env request http_request fs).1,
   (generate_image self env request http_request fs).2).
Proof.
  unfold post_generate_image, respond.
  destruct (generate_image self env request http_request fs) as [[body|[]] fs'];
    reflexivity.
Qed.

(** The code after the call saves the file of its request, or leaves
    the file system as it was, or leaves the file with the bytes that
    got through before the write failed. *)
Lemma save_result_effect (env : Env) (res : pyval) (fs fs' : gmap string node)
    (r : result (string * string)) :
  save_result env res fs = (r, fs') ->
  (exists e, r = Raise e /\ fs' = fs) \/
  (exists (e : exn) (tmp : string) (image_bytes : list byte) (kept : nat),
     r = Raise e /\
     fs !! tmp = Some (File image_bytes) /\
     os_write env (output_path (unique_filename env)) image_bytes = Torn kept /\
     fs' = <[output_path (unique_filename env) := File (take kept image_bytes)]> fs) \/
  (exists image_bytes : list byte,
     r = Ok (relative_path (unique_filename env), b64encode image_bytes) /\
     fs' = <[output_path (unique_filename env) := File image_bytes]> fs).
Proof.
  unfold save_result. unfold mbind at 1, io_bind at 1, lift at 1.
  destruct (checked_image res) as [tmp|e]; [|intros [= <- <-]; left; eauto].
  unfold mbind at 1, io_bind at 1, read_file.
  destruct tmp as [| | | |tmp| |]; try (intros [= <- <-]; left; eauto).
  destruct (fs !! tmp) as [[image_bytes|]|] eqn:Htmp; try (intros [= <- <-]; left; eauto).
  destruct (os_read env tmp); [|intros [= <- <-]; left; eauto].
  unfold mbind at 1, io_bind at 1.
  destruct (write_file env _ image_bytes fs) as [w fs1] eqn:Hwrite.
  apply write_file_effect in Hwrite
    as [(-> & -> & _)|[(kept & -> & -> & Htorn)|(-> & -> & _)]].
  - intros [= <- <-]. left. eauto.
  - intros [= <- <-]. right. left. exists OSError, tmp, image_bytes, kept. auto.
  - intros [= <- <-]. right. right. eauto.
Qed.

Lemma after_await_effect (env : Env) (request : ImageGenerationRequest)
    (http_request : Request) (aw : awaiting) (outcome : result pyval)
    (fs fs' : gmap string node) (r : result ImageGenerationResponse) :
  after_await env request http_request aw outcome fs = (r, fs') ->
  (fs' = fs /\ forall body, r <> Ok body) \/
  (exists image_bytes : list byte,
     fs' = <[output_path (unique_filename env) := File image_bytes]> fs /\
     forall body, r = Ok body -> image_base64 body = b64encode image_bytes).
Proof.
  unfold after_await. unfold mbind at 1, io_bind at 1, try_except.
  unfold mbind at 1, io_bind at 1, lift at 1.
  destruct outcome as [res|e].
  2:{ intros [= <- <-]. left. split; [reflexivity|discriminate]. }
  destruct (save_result env res fs) as [saved fs1] eqn:Hsave.
  apply save_result_effect in Hsave
    as [(e & -> & ->)|[(e & tmp & image_bytes & kept & -> & _ & _ & ->)|
                       (image_bytes & -> & ->)]].
  - intros [= <- <-]. left. split; [reflexivity|discriminate].
  - intros [= <- <-]. right. exists (take kept image_bytes).
    split; [reflexivity|discriminate].
  - unfold mbind, io_bind, lift.
    destruct (validate_context env (aw_context aw)) as [validated|e];
      intros [= <- <-]; right; exists image_bytes; split; try reflexivity.
    + intros body [= <-]. reflexivity.
    + discriminate.
Qed.

Lemma set_phase_same (w : bool) (p : phase) (ps : bool -> phase) :
  set_phase w p ps w = p.
Proof. unfold set_phase. now rewrite Bool.eqb_reflx. Qed.


Section TwoRequests.

Variable self : ChatbotService.
Variable calls : bool -> call.

(** The two requests save under different paths, and the Gradio client
    of one does not download onto the file saved by the other. *)
Hypothesis paths_differ :
  output_path (unique_filename (call_env (calls true))) <>
  output_path (unique_filename (call_env (calls false))).
Hypothesis downloads_elsewhere :
  forall (w : bool) (client : Client) (args : predict_args),
    downloaded (predict (call_env (calls (negb w))) client args)
      !! output_path (unique_filename (call_env (calls w))) = None.






End TwoRequests.

Section Steps.

Variables (self : ChatbotService) (calls : bool -> call).
Variables (w : bool) (st : server).

Lemma advance_not_started :
  phases st w = NotStarted ->
  advance self calls w st =
  match before_await self (call_env (calls w)) (call_request (calls w)) (files st) with
  | Ok aw => {| files := files st; phases := set_phase w (Awaiting aw) (phases st) |}
  | Raise e =>
      {| files := files st; phases := set_phase w (Done (respond (Raise e))) (phases st) |}
  end.
Proof. intros H. unfold advance. now rewrite H. Qed.

Lemma advance_awaiting (aw : awaiting) :
  phases st w = Awaiting aw ->
  advance self calls w st =
  let '(outcome, fs) :=
    call_predict (call_env (calls w)) (aw_client aw) (aw_args aw) (files st) in
  {| files := fs; phases := set_phase w (Returned aw outcome) (phases st) |}.
Proof. intros H. unfold advance. now rewrite H. Qed.

Lemma advance_returned (aw : awaiting) (outcome : result pyval) :
  phases st w = Returned aw outcome ->
  advance self calls w st =
  let '(r, fs) :=
    after_await (call_env (calls w)) (call_request (calls w)) (call_http (calls w))
      aw outcome (files st) in
  {| files := fs; phases := set_phase w (Done (respond r)) (phases st) |}.
Proof. intros H. unfold advance. now rewrite H. Qed.

End Steps.

(** X21: a request that takes its three steps in a row, with no step
    of the other request in between, gets the answer and leaves the
    file system of the endpoint run on its own. *)
Lemma run_alone (self : ChatbotService) (calls : bool -> call) (w : bool)
    (fs : gmap string node) :
  let c := calls w in
  let st := run self calls [w; w; w] (idle fs) in
  (phases st w, files st) =
  (Done (post_generate_image self (call_env c) (call_request c) (call_http c) fs).1,
   (post_generate_image self (call_env c) (call_request c) (call_http c) fs).2).
Proof.
  cbv zeta. rewrite post_generate_image_respond, generate_image_staged.
  unfold run. cbn [foldl].
  rewrite (advance_not_started self calls w (idle fs)) by reflexivity.
  cbn [idle files phases].
  destruct (before_await _ _ _ fs) as [aw|e].
  - set (st1 := {| files := fs; phases := set_phase w (Awaiting aw) _ |}).
    rewrite (advance_awaiting self calls w st1 aw) by apply set_phase_same.
    cbn [st1 files phases].
    destruct (call_predict _ _ _ fs) as [outcome fs1].
    set (st2 := {| files := fs1; phases := set_phase w (Returned aw outcome) _ |}).
    rewrite (advance_returned self calls w st2 aw outcome) by apply set_phase_same.
    cbn [st2 files phases].
    destruct (after_await _ _ _ _ _ fs1) as [r fs2]. cbn [phases files fst snd].
    now rewrite set_phase_same.
  - set (r := Done (respond (Raise e))).
    set (st1 := {| files := fs; phases := set_phase w r _ |}).
    assert (H1 : phases st1 w = r) by apply set_phase_same.
    assert (E : advance self calls w st1 = st1).
    { unfold advance. now rewrite H1. }
    rewrite !E. now rewrite H1.
Qed.


(** * The specification, claim by claim *)

(** C1, as the specification words it, fails: with the client unset, a
    request for an unknown bot identifier is answered 404, not 503. *)
Lemma C1_unset_client_unknown_bot_is_404 :
  gradio_client Sample.unset_service = None /\
  fst (post_generate_image Sample.unset_service Sample.env Sample.unknown_request
         Sample.http Sample.fs) =
    JSONResponse 404
      {| err_status := "error";
         err_message := "Bot with id 'nobody' is not a valid bot." |} /\
  status_code_of
    (fst (post_generate_image Sample.unset_service Sample.env Sample.unknown_request
            Sample.http Sample.fs)) <> 503%Z.
Proof. repeat split; vm_compute; congruence. Qed.

(** C1 (amended): if the shared client is unset, every request that
    passes the two validations (known bot identifier, base image
    present) is answered 503 "service unavailable", whatever the two
    completion calls do, and the file system is left as it was; a
    request with an unknown bot identifier or without a base image is
    answered 404 also then. *)
Theorem C1_unset_client_503_after_validation
    (self : ChatbotService) (env : Env) (request : ImageGenerationRequest)
    (http_request : Request) (fs : gmap string node) :
  gradio_client self = None ->
  (bot_id request ∈ VALID_BOT_IDS env ->
   is_Some (find_base_image fs (bot_id request) supported_extensions) ->
   post_generate_image self env request http_request fs =
     (JSONResponse 503
        {| err_status := "error";
           err_message := "Image generation service is not available." |}, fs)) /\
  (bot_id request ∉ VALID_BOT_IDS env \/
   find_base_image fs (bot_id request) supported_extensions = None ->
   status_code_of (fst (post_generate_image self env request http_request fs)) = 404%Z).
Proof.
  intros Hunset. split.
  - intros Hin [base_image_path Hfind]. unfold post_generate_image.
    rewrite (generate_image_validated _ _ _ _ _ base_image_path) by assumption.
    cbv zeta. unfold mbind at 1, io_bind at 1.
    rewrite generate_and_save_selfie_unset by assumption. reflexivity.
  - intros [Hout|Hnone]; unfold post_generate_image.
    + rewrite generate_image_unknown_bot by assumption. reflexivity.
    + destruct (decide (bot_id request ∈ VALID_BOT_IDS env)) as [Hin|Hout].
      * rewrite generate_image_missing_image by assumption. reflexivity.
      * rewrite generate_image_unknown_bot by assumption. reflexivity.
Qed.

Lemma C1_unset_client_503_witness :
  post_generate_image Sample.unset_service Sample.env Sample.request Sample.http Sample.fs =
    (JSONResponse 503
       {| err_status := "error";
          err_message := "Image generation service is not available." |}, Sample.fs).
Proof.
  apply (C1_unset_client_503_after_validation
           Sample.unset_service Sample.env Sample.request Sample.http Sample.fs).
  - reflexivity.
  - apply (bool_decide_unpack (bot_id Sample.request ∈ VALID_BOT_IDS Sample.env)).
    vm_compute. exact I.
  - exists "photos/delhi_mentor_male.jpg". vm_compute. reflexivity.
Defined.

(** C2: when the scene call raises, or returns no content or content
    that [json.loads] rejects, [extract_context] returns exactly the
    default triple; the request does not fail there: it goes on to
    [generate_and_save_selfie] with that triple, and its outcome is the
    outcome of the image generation, answered with the triple as
    [emotion_context]. *)
Theorem C2_scene_fallback_still_generates
    (self : ChatbotService) (env : Env) (request : ImageGenerationRequest)
    (http_request : Request) (fs : gmap string node) (text : option string) :
  (completion env (scene_args text) = CompletionFailed \/
   completion env (scene_args text) = Completed None \/
   exists content : string,
     completion env (scene_args text) = Completed (Some content) /\
     json_loads env content = None) ->
  extract_context env text =
    PyDict [("emotion", PyStr "neutral");
            ("location", PyStr "a room");
            ("action", PyStr "looking at the camera")] /\
  (forall bot_name : string,
     prompt_text env bot_name (extract_context env text) =
       Ok ("Close-up portrait of a person who looks like the reference image, " ++
           "with a neutral expression, looking at the camera, at a room. " ++
           "The person's name is " ++ bot_name ++
           ". Ultra-detailed, dslr quality, cinematic photo.")) /\
  forall base_image_path : string,
    text = get_bot_response_for_context env request (persona_name (bot_id request)) ->
    bot_id request ∈ VALID_BOT_IDS env ->
    find_base_image fs (bot_id request) supported_extensions = Some base_image_path ->
    generate_image self env request http_request fs =
      ('(image_path, image_base64) ←
         generate_and_save_selfie self env (persona_name (bot_id request))
           base_image_path default_context;
       mret {| resp_bot_id := bot_id request;
               image_url := rstrip_slash (base_url http_request) ++ image_path;
               image_base64 := image_base64;
               status := "success";
               emotion_context :=
                 [("emotion", "neutral");
                  ("location", "a room");
                  ("action", "looking at the camera")] |}) fs.
Proof.
  intros Hfail.
  assert (Hctx : extract_context env text = default_context).
  { unfold extract_context.
    destruct Hfail as [->|[->|(content & -> & ->)]]; reflexivity. }
  split; [exact Hctx|]. split; [intros bot_name; rewrite Hctx; reflexivity|].
  intros base_image_path Htext Hin Hfind.
  rewrite (generate_image_validated _ _ _ _ _ base_image_path) by assumption.
  cbv zeta. rewrite <- Htext, Hctx.
  unfold mbind, io_bind.
  destruct (generate_and_save_selfie _ _ _ _ _ fs) as [[[image_path b64]|e] fs1];
    reflexivity.
Qed.

Lemma C2_scene_fallback_still_generates_witness :
  generate_image Sample.service Sample.env_malformed_scene Sample.request Sample.http
    Sample.fs =
  (Ok {| resp_bot_id := "delhi_mentor_male";
         image_url :=
           "http://testserver/static/images/123e4567-e89b-42d3-a456-426614174000.png";
         image_base64 := "iVBORw0=";
         status := "success";
         emotion_context :=
           [("emotion", "neutral");
            ("location", "a room");
            ("action", "looking at the camera")] |},
   snd (generate_image Sample.service Sample.env_malformed_scene Sample.request
          Sample.http Sample.fs)).
Proof.
  rewrite (proj2 (proj2
             (C2_scene_fallback_still_generates
                Sample.service Sample.env_malformed_scene Sample.request Sample.http
                Sample.fs (Some "Oh no, that is rough!")
                (or_intror (or_intror
                   (ex_intro _ "Sure! Here it is" (conj eq_refl eq_refl))))))
             "photos/delhi_mentor_male.jpg" eq_refl).
  - reflexivity.
  - apply (bool_decide_unpack
             (bot_id Sample.request ∈ VALID_BOT_IDS Sample.env_malformed_scene)).
    vm_compute. exact I.
  - reflexivity.
Defined.

(** C3: for every request answered 200, decoding [image_base64] gives,
    byte for byte, the content of the file saved for that request, and
    [image_url] names that file; both are the bytes read from the file
    that the result of [predict] pointed to. *)
Theorem C3_payload_equals_saved_file
    (self : ChatbotService) (env : Env) (request : ImageGenerationRequest)
    (http_request : Request) (fs fs' : gmap string node)
    (body : ImageGenerationResponse) :
  post_generate_image self env request http_request fs = (Success body, fs') ->
  exists image_bytes : list byte,
    b64decode (image_base64 body) = Some image_bytes /\
    fs' !! output_path (unique_filename env) = Some (File image_bytes) /\
    image_url body =
      rstrip_slash (base_url http_request) ++ "/" ++ output_path (unique_filename env) /\
    exists (client : Client) (args : predict_args) (tmp : string),
      gradio_client self = Some client /\
      ((File <$> downloaded (predict env client args)) ∪ fs) !! tmp =
        Some (File image_bytes).
Proof.
  intros H. apply post_generate_image_success in H
    as (p & client & args & tmp & image_bytes & _ & _ & Hc & _ & Htmp & _ & Hurl & Hb64 & _ & _ & ->).
  exists image_bytes. split; [|split; [|split]].
  - rewrite Hb64. apply b64decode_b64encode.
  - apply lookup_insert_eq.
  - exact Hurl.
  - exists client, args, tmp. split; assumption.
Qed.

Lemma C3_payload_equals_saved_file_witness :
  exists image_bytes : list byte,
    b64decode "iVBORw0=" = Some image_bytes /\
    snd (post_generate_image Sample.service Sample.env Sample.request Sample.http Sample.fs)
      !! "static/images/123e4567-e89b-42d3-a456-426614174000.png" =
      Some (File image_bytes) /\
    "http://testserver/static/images/123e4567-e89b-42d3-a456-426614174000.png" =
      rstrip_slash "http://testserver/" ++ "/" ++ output_path (unique_filename Sample.env) /\
    exists (client : Client) (args : predict_args) (tmp : string),
      gradio_client Sample.service = Some client /\
      ((File <$> downloaded (predict Sample.env client args)) ∪ Sample.fs) !! tmp =
        Some (File image_bytes).
Proof.
  refine (C3_payload_equals_saved_file
            Sample.service Sample.env Sample.request Sample.http Sample.fs
            (snd (post_generate_image Sample.service Sample.env Sample.request
                    Sample.http Sample.fs))
            {| resp_bot_id := "delhi_mentor_male";
               image_url :=
                 "http://testserver/static/images/123e4567-e89b-42d3-a456-426614174000.png";
               image_base64 := "iVBORw0=";
               status := "success";
               emotion_context := [("emotion", "happy")] |} _).
  reflexivity.
Defined.

(** C4, as the specification words it, fails: when the application is
    reached below a path prefix, the path of [image_url] carries the
    prefix and so differs from the relative path of the saved file. *)
Lemma C4_prefixed_base_url_path_differs :
  fst (post_generate_image Sample.service Sample.env Sample.request
         Sample.http_prefixed Sample.fs) =
    Success
      {| resp_bot_id := "delhi_mentor_male";
         image_url :=
           "http://testserver/api/static/images/123e4567-e89b-42d3-a456-426614174000.png";
         image_base64 := "iVBORw0=";
         status := "success";
         emotion_context := [("emotion", "happy")] |} /\
  Url.path_of
    "http://testserver/api/static/images/123e4567-e89b-42d3-a456-426614174000.png" =
    Some "/api/static/images/123e4567-e89b-42d3-a456-426614174000.png" /\
  relative_path (unique_filename Sample.env) =
    "/static/images/123e4567-e89b-42d3-a456-426614174000.png" /\
  Url.path_of
    "http://testserver/api/static/images/123e4567-e89b-42d3-a456-426614174000.png" <>
    Some (relative_path (unique_filename Sample.env)).
Proof. repeat split; vm_compute; congruence. Qed.

(** C4 (amended): for every request answered 200, [image_url] is the
    request's base URL without its trailing slashes followed by the
    relative path [/static/images/<filename>] of the file saved for the
    request; when the base URL has no path of its own
    ([scheme://host/]), [image_url] is [scheme://host] followed by that
    relative path, which is then its path component. *)
Theorem C4_image_url_from_base_url
    (self : ChatbotService) (env : Env) (request : ImageGenerationRequest)
    (http_request : Request) (fs fs' : gmap string node)
    (body : ImageGenerationResponse) :
  post_generate_image self env request http_request fs = (Success body, fs') ->
  let filename := unique_filename env in
  image_url body = rstrip_slash (base_url http_request) ++ relative_path filename /\
  relative_path filename = "/" ++ output_path filename /\
  (exists image_bytes : list byte,
     fs' !! output_path filename = Some (File image_bytes)) /\
  (forall scheme netloc : string,
     base_url http_request = scheme ++ "://" ++ netloc ++ "/" ->
     all_chars (is_not ":") scheme = true ->
     netloc <> "" ->
     all_chars (fun c => negb (Url.ends_authority c)) netloc = true ->
     image_url body = scheme ++ "://" ++ netloc ++ relative_path filename /\
     Url.path_of (image_url body) = Some (relative_path filename)).
Proof.
  intros H filename. apply post_generate_image_success in H
    as (p & client & args & tmp & image_bytes & _ & _ & _ & _ & _ & _ & Hurl & _ & _ & _ & ->).
  fold filename in Hurl. split; [exact Hurl|]. split; [reflexivity|]. split.
  - exists image_bytes. apply lookup_insert_eq.
  - intros scheme netloc Hbase Hscheme Hne Hnetloc.
    assert (Hstrip : rstrip_slash (base_url http_request) = scheme ++ "://" ++ netloc).
    { rewrite Hbase.
      replace (scheme ++ "://" ++ netloc ++ "/") with ((scheme ++ "://" ++ netloc) ++ "/")
        by now rewrite !append_assoc.
      rewrite rstrip_slash_app_slash. apply rstrip_slash_id.
      rewrite endswith_slash_app.
      - rewrite endswith_slash_app by assumption.
        apply endswith_slash_all. revert Hnetloc. apply all_chars_impl.
        intros c Hc. unfold Url.ends_authority in Hc. unfold is_not.
        destruct (Ascii.eqb c "/"); [discriminate Hc | reflexivity].
      - destruct netloc; [contradiction | discriminate]. }
    assert (Hfull : image_url body = scheme ++ "://" ++ netloc ++ relative_path filename).
    { rewrite Hurl, Hstrip, !append_assoc. reflexivity. }
    split; [exact Hfull|].
    rewrite Hfull. unfold Url.path_of.
    rewrite after_scheme_app by assumption. cbn [mbind option_bind].
    change (relative_path filename) with ("/" ++ output_path filename).
    rewrite drop_authority_app by assumption.
    rewrite take_path_all; [reflexivity|]. apply relative_path_has_no_query.
Qed.

Lemma C4_image_url_from_base_url_witness :
  Url.path_of
    "http://testserver/static/images/123e4567-e89b-42d3-a456-426614174000.png" =
    Some (relative_path (unique_filename Sample.env)).
Proof.
  refine (proj2
            (proj2 (proj2 (proj2
               (C4_image_url_from_base_url
                  Sample.service Sample.env Sample.request Sample.http Sample.fs
                  (snd (post_generate_image Sample.service Sample.env Sample.request
                          Sample.http Sample.fs))
                  {| resp_bot_id := "delhi_mentor_male";
                     image_url :=
                       "http://testserver/static/images/123e4567-e89b-42d3-a456-426614174000.png";
                     image_base64 := "iVBORw0=";
                     status := "success";
                     emotion_context := [("emotion", "happy")] |} _)))
               "http" "testserver" _ _ _ _)).
  - reflexivity.
  - reflexivity.
  - reflexivity.
  - discriminate.
  - reflexivity.
Defined.

(** C5: when the scene call returns text that parses to a JSON object,
    [extract_context] returns that object and nothing else, whichever
    of the three keys it lacks.  The request goes on with exactly that
    object.  The prompt that is built, and that [predict] is called
    with, shows under each of the three keys the value the object has
    there (a string as it is, any other value through [str()]) and,
    for a key the object lacks, the fallback written in the prompt
    itself, which is not the value of the default triple.  The
    [emotion_context] of the response has the keys of the object, in
    their order, with every string value as it is, and no entry
    besides; for an object of strings it is the object. *)
Theorem C5_parsed_object_replaces_context
    (self : ChatbotService) (env : Env) (request : ImageGenerationRequest)
    (http_request : Request) (fs : gmap string node) (text : option string)
    (content : string) (entries : list (string * pyval)) :
  completion env (scene_args text) = Completed (Some content) ->
  json_loads env content = Some (PyDict entries) ->
  let shown (key fallback : string) : string :=
    match dict_lookup key entries with
    | Some (PyStr s) => s
    | Some v => py_repr env v
    | None => fallback
    end in
  let prompt_of (bot_name : string) : string :=
    "Close-up portrait of a person who looks like the reference image, with a " ++
    shown "emotion" "neutral expression" ++ " expression, " ++
    shown "action" "looking at the camera" ++ ", at " ++
    shown "location" "a neutral background" ++ ". " ++
    "The person's name is " ++ bot_name ++
    ". Ultra-detailed, dslr quality, cinematic photo." in
  extract_context env text = PyDict entries /\
  (forall bot_name : string,
     prompt_text env bot_name (extract_context env text) = Ok (prompt_of bot_name)) /\
  (forall (client : Client) (bot_name base_image_path : string)
          (fs0 : gmap string node),
     gradio_client self = Some client ->
     generate_and_save_selfie self env bot_name base_image_path
       (extract_context env text) fs0 =
     try_except
       (res ← call_predict env client
                {| images := [base_image_path];
                   prompt := prompt_of bot_name;
                   negative_prompt := "nsfw, low quality, deformed, ugly";
                   api_name := "/generate_image" |};
        save_result env res)
       (fun _ => raise (HTTPException 500 "Failed to generate the image internally."))
       fs0) /\
  (forall validated : list (string * string),
     validate_context env (extract_context env text) = Ok validated ->
     Forall2
       (fun entry kept => kept.1 = entry.1 /\ forall s, entry.2 = PyStr s -> kept.2 = s)
       entries validated) /\
  (forall strings : list (string * string),
     entries = prod_map id PyStr <$> strings ->
     validate_context env (PyDict entries) = Ok strings) /\
  forall base_image_path : string,
    text = get_bot_response_for_context env request (persona_name (bot_id request)) ->
    bot_id request ∈ VALID_BOT_IDS env ->
    find_base_image fs (bot_id request) supported_extensions = Some base_image_path ->
    generate_image self env request http_request fs =
      ('(image_path, image_base64) ←
         generate_and_save_selfie self env (persona_name (bot_id request))
           base_image_path (PyDict entries);
       validated ← lift (validate_context env (PyDict entries));
       mret {| resp_bot_id := bot_id request;
               image_url := rstrip_slash (base_url http_request) ++ image_path;
               image_base64 := image_base64;
               status := "success";
               emotion_context := validated |}) fs.
Proof.
  intros Hcall Hjson shown prompt_of.
  assert (Hctx : extract_context env text = PyDict entries).
  { unfold extract_context. now rewrite Hcall, Hjson. }
  assert (Hshown : forall key fallback,
            py_format env (default (PyStr fallback) (dict_lookup key entries)) =
            shown key fallback).
  { intros key fallback. unfold shown.
    destruct (dict_lookup key entries) as [v|]; [|reflexivity].
    change (default (PyStr fallback) (Some v)) with v. now destruct v. }
  assert (Hprompt : forall bot_name,
            prompt_text env bot_name (PyDict entries) = Ok (prompt_of bot_name)).
  { intros bot_name. unfold prompt_text, prompt_of.
    cbn [py_get mbind result_bind mret result_ret]. now rewrite !Hshown. }
  split; [exact Hctx|]. split; [intros bot_name; rewrite Hctx; apply Hprompt|].
  split; [|split; [|split]].
  - intros client bot_name base_image_path fs0 Hclient.
    unfold generate_and_save_selfie. rewrite Hclient, Hctx.
    unfold mbind at 1, io_bind at 1, lift at 1. rewrite Hprompt. reflexivity.
  - intros validated. rewrite Hctx. apply validate_context_entries.
  - intros strings ->. apply validate_context_strings.
  - intros base_image_path Htext Hin Hfind.
    rewrite (generate_image_validated _ _ _ _ _ base_image_path) by assumption.
    cbv zeta. rewrite <- Htext, Hctx. reflexivity.
Qed.

Lemma C5_parsed_object_replaces_context_witness :
  extract_context Sample.env (Some "Oh no, that is rough!") =
    PyDict [("emotion", PyStr "happy")] /\
  prompt_text Sample.env "Delhi Mentor Male"
    (extract_context Sample.env (Some "Oh no, that is rough!")) =
    Ok ("Close-up portrait of a person who looks like the reference image, " ++
        "with a happy expression, looking at the camera, at a neutral background. " ++
        "The person's name is Delhi Mentor Male. " ++
        "Ultra-detailed, dslr quality, cinematic photo.") /\
  generate_image Sample.service Sample.env Sample.request Sample.http Sample.fs =
  (Ok {| resp_bot_id := "delhi_mentor_male";
         image_url :=
           "http://testserver/static/images/123e4567-e89b-42d3-a456-426614174000.png";
         image_base64 := "iVBORw0=";
         status := "success";
         emotion_context := [("emotion", "happy")] |},
   snd (generate_image Sample.service Sample.env Sample.request Sample.http Sample.fs)).
Proof.
  pose proof (C5_parsed_object_replaces_context
                Sample.service Sample.env Sample.request Sample.http Sample.fs
                (Some "Oh no, that is rough!") Sample.scene
                [("emotion", PyStr "happy")] eq_refl eq_refl)
    as (Hctx & Hprompt & _ & _ & _ & Hrun).
  split; [exact Hctx|]. split; [exact (Hprompt "Delhi Mentor Male")|].
  rewrite (Hrun "photos/delhi_mentor_male.jpg" eq_refl).
  - reflexivity.
  - apply (bool_decide_unpack (bot_id Sample.request ∈ VALID_BOT_IDS Sample.env)).
    vm_compute. exact I.
  - reflexivity.
Defined.



(** C7: for a bot identifier of the registry, the base image is looked
    up in the order .jpeg, .jpg, .png, .webp; the path chosen is the
    first [os.path.join("photos", bot_id + ext)] that exists, which is
    [photos/<bot_id><ext>] for an identifier that does not start with a
    slash; when none of the four exists the answer is 404. *)
Theorem C7_base_image_ordered_scan
    (self : ChatbotService) (env : Env) (request : ImageGenerationRequest)
    (http_request : Request) (fs : gmap string node) :
  bot_id request ∈ VALID_BOT_IDS env ->
  supported_extensions = [".jpeg"; ".jpg"; ".png"; ".webp"] /\
  (forall p : string,
     find_base_image fs (bot_id request) supported_extensions = Some p <->
     exists (i : nat) (ext : string),
       supported_extensions !! i = Some ext /\
       p = photo_path (bot_id request) ext /\
       os_path_exists fs p = true /\
       forall (j : nat) (ext' : string),
         (j < i)%nat -> supported_extensions !! j = Some ext' ->
         os_path_exists fs (photo_path (bot_id request) ext') = false) /\
  (startswith_slash (bot_id request) = false ->
   forall ext, In ext supported_extensions ->
     photo_path (bot_id request) ext = "photos/" ++ bot_id request ++ ext) /\
  ((forall ext, In ext supported_extensions ->
      os_path_exists fs (photo_path (bot_id request) ext) = false) ->
   post_generate_image self env request http_request fs =
     (JSONResponse 404
        {| err_status := "error";
           err_message := missing_image_detail (bot_id request) |}, fs)).
Proof.
  intros Hin. split; [reflexivity|]. split; [|split].
  - intros p. apply find_base_image_first.
  - intros Hs ext Hext. unfold photo_path, os_path_join.
    assert (Hb : startswith_slash (bot_id request ++ ext) = false).
    { destruct (bot_id request) as [|c b]; [|exact Hs].
      rewrite append_nil. cbn in Hext.
      destruct Hext as [<-|[<-|[<-|[<-|[]]]]]; reflexivity. }
    rewrite Hb. reflexivity.
  - intros Hnone. apply find_base_image_none in Hnone.
    unfold post_generate_image. rewrite generate_image_missing_image by assumption.
    reflexivity.
Qed.

Lemma C7_base_image_ordered_scan_witness :
  find_base_image Sample.fs "delhi_mentor_male" supported_extensions =
    Some "photos/delhi_mentor_male.jpg" /\
  post_generate_image Sample.service Sample.env Sample.request Sample.http ∅ =
    (JSONResponse 404
       {| err_status := "error";
          err_message := missing_image_detail "delhi_mentor_male" |}, ∅).
Proof.
  split.
  - vm_compute. reflexivity.
  - apply (C7_base_image_ordered_scan
             Sample.service Sample.env Sample.request Sample.http ∅).
    + apply (bool_decide_unpack (bot_id Sample.request ∈ VALID_BOT_IDS Sample.env)).
      vm_compute. exact I.
    + intros ext Hext. unfold os_path_exists. rewrite lookup_empty.
      apply bool_decide_false. intros [x Hx]. discriminate Hx.
Defined.

(** C8: when the reaction call raises, [get_bot_response_for_context]
    returns the text made of the persona name and the user message
    alone, and the request goes on with that text as the input of the
    scene extraction: no error comes out of the failure. *)
Theorem C8_reaction_fallback
    (self : ChatbotService) (env : Env) (request : ImageGenerationRequest)
    (http_request : Request) (fs : gmap string node) (bot_name : string) :
  completion env (reaction_args request bot_name) = CompletionFailed ->
  get_bot_response_for_context env request bot_name =
    Some (bot_name ++ " is thinking about the message: '" ++ message request ++ "'") /\
  forall base_image_path : string,
    bot_name = persona_name (bot_id request) ->
    bot_id request ∈ VALID_BOT_IDS env ->
    find_base_image fs (bot_id request) supported_extensions = Some base_image_path ->
    generate_image self env request http_request fs =
      (let context :=
         extract_context env
           (Some (bot_name ++ " is thinking about the message: '" ++
                  message request ++ "'")) in
       '(image_path, image_base64) ←
         generate_and_save_selfie self env bot_name base_image_path context;
       validated ← lift (validate_context env context);
       mret {| resp_bot_id := bot_id request;
               image_url := rstrip_slash (base_url http_request) ++ image_path;
               image_base64 := image_base64;
               status := "success";
               emotion_context := validated |}) fs.
Proof.
  intros Hfail.
  assert (Htext : get_bot_response_for_context env request bot_name =
                  Some (fallback_reaction bot_name (message request))).
  { unfold get_bot_response_for_context. now rewrite Hfail. }
  split; [exact Htext|].
  intros base_image_path -> Hin Hfind.
  rewrite (generate_image_validated _ _ _ _ _ base_image_path) by assumption.
  cbv zeta. rewrite Htext. reflexivity.
Qed.

Lemma C8_reaction_fallback_witness :
  get_bot_response_for_context Sample.env_failed_reaction Sample.request
    "Delhi Mentor Male" =
    Some "Delhi Mentor Male is thinking about the message: 'I failed my exam'" /\
  fst (post_generate_image Sample.service Sample.env_failed_reaction Sample.request
         Sample.http Sample.fs) =
    Success
      {| resp_bot_id := "delhi_mentor_male";
         image_url :=
           "http://testserver/static/images/123e4567-e89b-42d3-a456-426614174000.png";
         image_base64 := "iVBORw0=";
         status := "success";
         emotion_context := [("emotion", "happy")] |}.
Proof.
  split.
  - exact (proj1 (C8_reaction_fallback
                    Sample.service Sample.env_failed_reaction Sample.request
                    Sample.http Sample.fs "Delhi Mentor Male" eq_refl)).
  - vm_compute. reflexivity.
Defined.




(** C10: whenever [generate_and_save_selfie] returns, it has written
    the image to [static/images/<uuid>.png] and returns
    [/static/images/<uuid>.png] for the same [<uuid>.png]; the name is
    the 36 characters of the UUID followed by [.png] and contains no
    slash, whatever the base image path and whatever file the upstream
    service returned.  It is the only file the function writes: any
    other path holds what it held before, or a download of the Gradio
    client. *)
Theorem C10_saved_as_uuid_png
    (self : ChatbotService) (env : Env) (bot_name base_image_path : string)
    (context : pyval) (fs fs' : gmap string node) (image_path image_base64 : string) :
  generate_and_save_selfie self env bot_name base_image_path context fs =
    (Ok (image_path, image_base64), fs') ->
  let filename := uuid_str (uuid4 env) ++ ".png" in
  image_path = "/static/images/" ++ filename /\
  (exists image_bytes : list byte,
     fs' !! ("static/images/" ++ filename) = Some (File image_bytes) /\
     image_base64 = b64encode image_bytes) /\
  String.length filename = 40%nat /\
  all_chars (is_not "/") filename = true /\
  (forall path : string,
     path <> "static/images/" ++ filename ->
     fs' !! path = fs !! path \/
     exists (client : Client) (args : predict_args) (content : list byte),
       downloaded (predict env client args) !! path = Some content /\
       fs' !! path = Some (File content)).
Proof.
  intros H filename. apply generate_and_save_selfie_ok in H
    as (client & args & tmp & image_bytes & _ & _ & _ & -> & -> & ->).
  split; [reflexivity|]. split; [|split; [|split]].
  - exists image_bytes. split; [apply lookup_insert_eq | reflexivity].
  - unfold filename. rewrite append_length, uuid_str_length. reflexivity.
  - unfold filename. rewrite all_chars_app, all_chars_uuid_str; [reflexivity| |reflexivity].
    intros d. now apply hex_digit_is_not.
  - intros path Hpath. rewrite lookup_insert_ne by (intros E; apply Hpath; now rewrite <- E).
    destruct (downloaded (predict env client args) !! path) as [content|] eqn:Hd.
    + right. exists client, args, content. split; [exact Hd|].
      apply lookup_union_Some_l. now rewrite lookup_fmap, Hd.
    + left. apply lookup_union_r. now rewrite lookup_fmap, Hd.
Qed.

Lemma C10_saved_as_uuid_png_witness :
  let filename := uuid_str Sample.uuid_a ++ ".png" in
  "/static/images/123e4567-e89b-42d3-a456-426614174000.png" =
    "/static/images/" ++ filename /\
  (exists image_bytes : list byte,
     snd (generate_and_save_selfie Sample.service Sample.env "Delhi Mentor Male"
            "photos/delhi_mentor_male.jpg" default_context Sample.fs)
       !! ("static/images/" ++ filename) = Some (File image_bytes) /\
     "iVBORw0=" = b64encode image_bytes) /\
  String.length filename = 40%nat /\
  all_chars (is_not "/") filename = true /\
  (forall path : string,
     path <> "static/images/" ++ filename ->
     snd (generate_and_save_selfie Sample.service Sample.env "Delhi Mentor Male"
            "photos/delhi_mentor_male.jpg" default_context Sample.fs) !! path =
       Sample.fs !! path \/
     exists (client : Client) (args : predict_args) (content : list byte),
       downloaded (predict Sample.env client args) !! path = Some content /\
       snd (generate_and_save_selfie Sample.service Sample.env "Delhi Mentor Male"
              "photos/delhi_mentor_male.jpg" default_context Sample.fs) !! path =
         Some (File content)).
Proof.
  refine (C10_saved_as_uuid_png
            Sample.service Sample.env "Delhi Mentor Male" "photos/delhi_mentor_male.jpg"
            default_context Sample.fs _ _ _ _).
  reflexivity.
Defined.

(** * Further properties of the code *)

(** ** Every way a request can end *)

Lemma prompt_text_raises (env : Env) (bot_name : string) (context : pyval) (e : exn) :
  prompt_text env bot_name context = Raise e ->
  e = AttributeError /\ (forall entries, context <> PyDict entries).
Proof.
  unfold prompt_text.
  destruct context; cbn; intros H; [injection H as <-; split; [reflexivity|discriminate]..|].
  discriminate H.
Qed.

Lemma prompt_text_returns (env : Env) (bot_name : string) (context : pyval) (p : string) :
  prompt_text env bot_name context = Ok p -> exists entries, context = PyDict entries.
Proof.
  unfold prompt_text. destruct context; cbn; try discriminate. eauto.
Qed.

Lemma validate_context_raises (env : Env) (context : pyval) (e : exn) :
  validate_context env context = Raise e -> e = ValidationError.
Proof.
  unfold validate_context. destruct context; try (now intros [= <-]).
  destruct (mapM _ _); [discriminate | now intros [= <-]].
Qed.

Section Outcomes.

Variables (self : ChatbotService) (env : Env).
Variables (request : ImageGenerationRequest) (http_request : Request).
Variable fs : gmap string node.

Let bot_name := persona_name (bot_id request).
Let context :=
  extract_context env (get_bot_response_for_context env request bot_name).

(** The code up to the call of [predict] stops for exactly four
    reasons. *)
Lemma before_await_cases :
  match before_await self env request fs with
  | Ok aw =>
      bot_id request ∈ VALID_BOT_IDS env /\
      exists (base_image_path prompt : string) (client : Client),
        find_base_image fs (bot_id request) supported_extensions = Some base_image_path /\
        gradio_client self = Some client /\
        prompt_text env bot_name context = Ok prompt /\
        aw = {| aw_client := client;
                aw_args := selfie_args base_image_path prompt;
                aw_context := context |}
  | Raise e =>
      ((bot_id request ∉ VALID_BOT_IDS env) /\
       e = HTTPException 404 (unknown_bot_detail (bot_id request))) \/
      (bot_id request ∈ VALID_BOT_IDS env /\
       find_base_image fs (bot_id request) supported_extensions = None /\
       e = HTTPException 404 (missing_image_detail (bot_id request))) \/
      (bot_id request ∈ VALID_BOT_IDS env /\
       is_Some (find_base_image fs (bot_id request) supported_extensions) /\
       gradio_client self = None /\
       e = HTTPException 503 "Image generation service is not available.") \/
      (bot_id request ∈ VALID_BOT_IDS env /\
       is_Some (find_base_image fs (bot_id request) supported_extensions) /\
       is_Some (gradio_client self) /\
       (forall entries, context <> PyDict entries) /\
       e = AttributeError)
  end.
Proof.
  unfold before_await.
  destruct (decide (bot_id request ∈ VALID_BOT_IDS env)) as [Hin|Hout].
  2:{ rewrite bool_decide_false by assumption. cbn [negb]. left. now split. }
  rewrite bool_decide_true by assumption. cbn [negb].
  destruct (find_base_image fs (bot_id request) supported_extensions)
    as [p|] eqn:Hfind; cbv beta iota.
  2:{ right. left. now repeat split. }
  pose proof (find_base_image_nonempty _ _ _ _ Hfind) as Hne.
  destruct p as [|c p]; [contradiction|]. cbv beta iota zeta.
  destruct (gradio_client self) as [client|] eqn:Hclient; cbv beta iota.
  2:{ right. right. left. repeat split; eauto. }
  fold bot_name. fold context.
  destruct (prompt_text env bot_name context) as [prompt|e] eqn:Hprompt.
  - cbn. split; [assumption|]. exists (String c p), prompt, client. now repeat split.
  - cbn. apply prompt_text_raises in Hprompt as [-> Hnot].
    right. right. right. repeat split; eauto.
Qed.

(** The code after the call of [predict] ends in one of three ways;
    the first may leave a torn file behind. *)
Lemma after_await_cases (aw : awaiting) (outcome : result pyval)
    (fs1 : gmap string node) :
  let '(r, fs') := after_await env request http_request aw outcome fs1 in
  (r = Raise (HTTPException 500 "Failed to generate the image internally.") /\
   (fs' = fs1 \/
    exists (tmp : string) (image_bytes : list byte) (kept : nat),
      fs1 !! tmp = Some (File image_bytes) /\
      os_write env (output_path (unique_filename env)) image_bytes = Torn kept /\
      fs' = <[output_path (unique_filename env) := File (take kept image_bytes)]> fs1)) \/
  (exists image_bytes : list byte,
     fs' = <[output_path (unique_filename env) := File image_bytes]> fs1 /\
     ((r = Raise ValidationError /\
       validate_context env (aw_context aw) = Raise ValidationError) \/
      (exists validated,
         validate_context env (aw_context aw) = Ok validated /\
         r = Ok {| resp_bot_id := bot_id request;
                   image_url :=
                     rstrip_slash (base_url http_request) ++
                     relative_path (unique_filename env);
                   image_base64 := b64encode image_bytes;
                   status := "success";
                   emotion_context := validated |}))).
Proof.
  unfold after_await. unfold mbind at 1, io_bind at 1, try_except.
  unfold mbind at 1, io_bind at 1, lift at 1.
  destruct outcome as [res|e]; [|left; split; [reflexivity|now left]].
  destruct (save_result env res fs1) as [saved fs2] eqn:Hsave.
  apply save_result_effect in Hsave
    as [(e & -> & ->)|[(e & tmp & image_bytes & kept & -> & Htmp & Htorn & ->)|
                       (image_bytes & -> & ->)]].
  { left. split; [reflexivity|now left]. }
  { left. split; [reflexivity|]. right. exists tmp, image_bytes, kept. auto. }
  unfold mbind, io_bind, lift, mret, io_ret.
  destruct (validate_context env (aw_context aw)) as [validated|e] eqn:Hval.
  - right. exists image_bytes. split; [reflexivity|].
    right. exists validated. now split.
  - right. exists image_bytes. split; [reflexivity|].
    left. apply validate_context_raises in Hval as ->. now split.
Qed.

End Outcomes.

Section Answers.

Variables (self : ChatbotService) (env : Env).
Variables (request : ImageGenerationRequest) (http_request : Request).
Variable fs : gmap string node.

Let context :=
  extract_context env
    (get_bot_response_for_context env request (persona_name (bot_id request))).
Let answer := post_generate_image self env request http_request fs.

(** The endpoint ends in one of seven ways, each with its answer and
    its file system; the JSON 500 may come with a torn file. *)
Lemma post_generate_image_cases :
  ((bot_id request ∉ VALID_BOT_IDS env) /\
   answer = (http_exception_handler 404 (unknown_bot_detail (bot_id request)), fs)) \/
  (bot_id request ∈ VALID_BOT_IDS env /\
   find_base_image fs (bot_id request) supported_extensions = None /\
   answer = (http_exception_handler 404 (missing_image_detail (bot_id request)), fs)) \/
  (bot_id request ∈ VALID_BOT_IDS env /\
   is_Some (find_base_image fs (bot_id request) supported_extensions) /\
   gradio_client self = None /\
   answer =
     (http_exception_handler 503 "Image generation service is not available.", fs)) \/
  (bot_id request ∈ VALID_BOT_IDS env /\
   is_Some (find_base_image fs (bot_id request) supported_extensions) /\
   is_Some (gradio_client self) /\
   (forall entries, context <> PyDict entries) /\
   answer = (InternalServerError, fs)) \/
  (exists (base_image_path prompt : string) (client : Client),
     bot_id request ∈ VALID_BOT_IDS env /\
     find_base_image fs (bot_id request) supported_extensions = Some base_image_path /\
     gradio_client self = Some client /\
     prompt_text env (persona_name (bot_id request)) context = Ok prompt /\
     let outcome := predict env client (selfie_args base_image_path prompt) in
     let fs1 := (File <$> downloaded outcome) ∪ fs in
     (exists fs' : gmap string node,
        answer =
          (http_exception_handler 500 "Failed to generate the image internally.", fs') /\
        (fs' = fs1 \/
         exists (tmp : string) (image_bytes : list byte) (kept : nat),
           fs1 !! tmp = Some (File image_bytes) /\
           os_write env (output_path (unique_filename env)) image_bytes = Torn kept /\
           fs' = <[output_path (unique_filename env) := File (take kept image_bytes)]>
                   fs1)) \/
     exists image_bytes : list byte,
       (validate_context env context = Raise ValidationError /\
        answer =
          (InternalServerError,
           <[output_path (unique_filename env) := File image_bytes]> fs1)) \/
       (exists validated,
          validate_context env context = Ok validated /\
          answer =
            (Success
               {| resp_bot_id := bot_id request;
                  image_url :=
                    rstrip_slash (base_url http_request) ++
                    relative_path (unique_filename env);
                  image_base64 := b64encode image_bytes;
                  status := "success";
                  emotion_context := validated |},
             <[output_path (unique_filename env) := File image_bytes]> fs1))).
Proof.
  unfold answer. rewrite post_generate_image_respond, generate_image_staged.
  pose proof (before_await_cases self env request fs) as Hbefore.
  destruct (before_await self env request fs) as [aw|e].
  - destruct Hbefore as (Hin & p & prompt & client & Hfind & Hclient & Hprompt & ->).
    do 4 right. exists p, prompt, client. do 4 (split; [assumption|]).
    cbv zeta. cbn [aw_client aw_args aw_context]. unfold call_predict.
    set (fs1 := (File <$> downloaded (predict env client (selfie_args p prompt))) ∪ fs).
    pose proof (after_await_cases env request http_request
                  {| aw_client := client; aw_args := selfie_args p prompt;
                     aw_context := context |}
                  (returned (predict env client (selfie_args p prompt))) fs1) as Hafter.
    fold context.
    destruct (after_await _ _ _ _ _ fs1) as [r fs'].
    destruct Hafter as [[-> Hfs]|(image_bytes & -> & [[-> Hval]|(validated & Hval & ->)])].
    + left. exists fs'. split; [reflexivity|exact Hfs].
    + right. exists image_bytes. left. now split.
    + right. exists image_bytes. right. exists validated. now split.
  - destruct Hbefore as [[Hout ->]|[(Hin & Hfind & ->)|[(Hin & Hfind & Hclient & ->)|
      (Hin & Hfind & Hclient & Hctx & ->)]]].
    + left. now split.
    + right. left. now repeat split.
    + do 2 right. left. now repeat split.
    + do 3 right. left. now repeat split.
Qed.

End Answers.

(** X1: once the body of a request has passed the validation of
    [ImageGenerationRequest] and the handler runs, its answer is a 200
    that carries the request's bot identifier and the marker
    [success], or a JSON error with the marker [error] and one of the
    codes 404, 500 and 503, or the server's plain 500.  (A body that
    fails the validation never reaches the handler; the framework's
    answer to it is not in the source.) *)
Theorem X1_answer_kinds
    (self : ChatbotService) (env : Env) (request : ImageGenerationRequest)
    (http_request : Request) (fs : gmap string node) :
  let r := (post_generate_image self env request http_request fs).1 in
  (exists body,
     r = Success body /\ status body = "success" /\
     resp_bot_id body = bot_id request) \/
  (exists (code : Z) (detail : string),
     r = JSONResponse code {| err_status := "error"; err_message := detail |} /\
     (code = 404 \/ code = 500 \/ code = 503)%Z) \/
  r = InternalServerError.
Proof.
  cbv zeta.
  destruct (post_generate_image_cases self env request http_request fs)
    as [[_ ->]|[(_ & _ & ->)|[(_ & _ & _ & ->)|[(_ & _ & _ & _ & ->)|
       (p & prompt & client & _ & _ & _ & _ &
          [(fs' & -> & _)|(bytes & [[_ ->]|(validated & _ & ->)])])]]]]; cbn [fst].
  - right. left. eexists _, _. split; [reflexivity|]. now left.
  - right. left. eexists _, _. split; [reflexivity|]. now left.
  - right. left. eexists _, _. split; [reflexivity|]. right; now right.
  - right; now right.
  - right. left. eexists _, _. split; [reflexivity|]. right; now left.
  - right; now right.
  - left. eexists. now repeat split.
Qed.


(** X3: the answer is 503 exactly when the request has passed both
    validations and the shared client is unset. *)
Theorem X3_status_503_iff
    (self : ChatbotService) (env : Env) (request : ImageGenerationRequest)
    (http_request : Request) (fs : gmap string node) :
  status_code_of (post_generate_image self env request http_request fs).1 = 503%Z <->
  bot_id request ∈ VALID_BOT_IDS env /\
  is_Some (find_base_image fs (bot_id request) supported_extensions) /\
  gradio_client self = None.
Proof.
  destruct (post_generate_image_cases self env request http_request fs)
    as [[Hout ->]|[(Hin & Hfind & ->)|[(Hin & Hfind & Hc & ->)|
       [(Hin & Hfind & [c Hc] & _ & ->)|
       (p & prompt & client & Hin & Hfind & Hc & _ &
          [(fs' & -> & _)|(bytes & [[_ ->]|(validated & _ & ->)])])]]]];
    cbn [fst status_code_of http_exception_handler].
  - split; [discriminate | intros (Hin' & _ & _); contradiction].
  - split; [discriminate | intros (_ & [p' Hfind'] & _); congruence].
  - split; [intros _; now repeat split | reflexivity].
  - split; [discriminate | intros (_ & _ & Hc'); congruence].
  - split; [discriminate | intros (_ & _ & Hc'); congruence].
  - split; [discriminate | intros (_ & _ & Hc'); congruence].
  - split; [discriminate | intros (_ & _ & Hc'); congruence].
Qed.

(** X4: what an error answer leaves behind.  A 404 or a 503 leaves the
    file system exactly as it was.  A JSON 500 leaves the downloads of
    the Gradio client and, when the write failed after [open] had made
    or truncated the output file, that file with the bytes of the image
    that got through; the answer does not name it, and no [except]
    branch removes it. *)
Theorem X4_what_an_error_answer_leaves
    (self : ChatbotService) (env : Env) (request : ImageGenerationRequest)
    (http_request : Request) (fs : gmap string node) :
  let answer := post_generate_image self env request http_request fs in
  (status_code_of answer.1 = 404%Z \/ status_code_of answer.1 = 503%Z ->
   answer.2 = fs) /\
  (forall content : ErrorDetail,
     answer.1 = JSONResponse 500 content ->
     exists (client : Client) (args : predict_args),
       let fs1 := (File <$> downloaded (predict env client args)) ∪ fs in
       answer.2 = fs1 \/
       exists (tmp : string) (image_bytes : list byte) (kept : nat),
         fs1 !! tmp = Some (File image_bytes) /\
         os_write env (output_path (unique_filename env)) image_bytes = Torn kept /\
         answer.2 =
           <[output_path (unique_filename env) := File (take kept image_bytes)]> fs1).
Proof.
  cbv zeta.
  destruct (post_generate_image_cases self env request http_request fs)
    as [[Hout ->]|[(Hin & Hfind & ->)|[(Hin & Hfind & Hc & ->)|
       [(Hin & Hfind & Hc & _ & ->)|
       (p & prompt & client & Hin & Hfind & Hc & _ &
          [(fs' & -> & Hfs)|(bytes & [[_ ->]|(validated & _ & ->)])])]]]];
    cbn [fst snd status_code_of http_exception_handler]; split;
    try reflexivity; try discriminate; try (intros [?|?]; discriminate).
  intros content _. exists client, (selfie_args p prompt). exact Hfs.
Qed.

Lemma X4_what_an_error_answer_leaves_witness :
  exists (client : Client) (args : predict_args),
    let fs1 := (File <$> downloaded (predict Cases.env_torn_write client args)) ∪ Sample.fs in
    (post_generate_image Sample.service Cases.env_torn_write Sample.request Sample.http
       Sample.fs).2 = fs1 \/
    exists (tmp : string) (image_bytes : list byte) (kept : nat),
      fs1 !! tmp = Some (File image_bytes) /\
      os_write Cases.env_torn_write (output_path (unique_filename Cases.env_torn_write))
        image_bytes = Torn kept /\
      (post_generate_image Sample.service Cases.env_torn_write Sample.request Sample.http
         Sample.fs).2 =
        <[output_path (unique_filename Cases.env_torn_write) :=
            File (take kept image_bytes)]> fs1.
Proof.
  apply (proj2 (X4_what_an_error_answer_leaves
                  Sample.service Cases.env_torn_write Sample.request Sample.http
                  Sample.fs)
           {| err_status := "error";
              err_message := "Failed to generate the image internally." |}).
  reflexivity.
Defined.

Lemma before_await_ok
    (self : ChatbotService) (env : Env) (request : ImageGenerationRequest)
    (fs : gmap string node) (base_image_path prompt : string) (client : Client) :
  bot_id request ∈ VALID_BOT_IDS env ->
  find_base_image fs (bot_id request) supported_extensions = Some base_image_path ->
  gradio_client self = Some client ->
  prompt_text env (persona_name (bot_id request))
    (extract_context env
       (get_bot_response_for_context env request (persona_name (bot_id request)))) =
    Ok prompt ->
  before_await self env request fs =
  Ok {| aw_client := client;
        aw_args := selfie_args base_image_path prompt;
        aw_context :=
          extract_context env
            (get_bot_response_for_context env request
               (persona_name (bot_id request))) |}.
Proof.
  intros Hin Hfind Hclient Hprompt. unfold before_await.
  rewrite bool_decide_true by assumption. cbn [negb]. rewrite Hfind.
  pose proof (find_base_image_nonempty _ _ _ _ Hfind) as Hne.
  destruct base_image_path; [contradiction|].
  cbv zeta. rewrite Hclient, Hprompt. reflexivity.
Qed.

(** X5: whatever exception the call of [predict] raises, the client
    receives the same JSON 500 with the fixed message; the exception's
    own text is not passed on, and nothing is saved. *)
Theorem X5_upstream_exception_is_hidden
    (self : ChatbotService) (env : Env) (request : ImageGenerationRequest)
    (http_request : Request) (fs : gmap string node)
    (base_image_path prompt : string) (client : Client) (e : exn) :
  bot_id request ∈ VALID_BOT_IDS env ->
  find_base_image fs (bot_id request) supported_extensions = Some base_image_path ->
  gradio_client self = Some client ->
  prompt_text env (persona_name (bot_id request))
    (extract_context env
       (get_bot_response_for_context env request (persona_name (bot_id request)))) =
    Ok prompt ->
  returned (predict env client (selfie_args base_image_path prompt)) = Raise e ->
  post_generate_image self env request http_request fs =
    (JSONResponse 500
       {| err_status := "error";
          err_message := "Failed to generate the image internally." |},
     (File <$> downloaded (predict env client (selfie_args base_image_path prompt)))
       ∪ fs).
Proof.
  intros Hin Hfind Hclient Hprompt Hraise.
  rewrite post_generate_image_respond, generate_image_staged.
  rewrite (before_await_ok self env request fs base_image_path prompt client)
    by assumption.
  cbn [aw_client aw_args]. unfold call_predict. rewrite Hraise.
  reflexivity.
Qed.

Lemma X5_upstream_exception_is_hidden_witness :
  post_generate_image Sample.service Cases.env_predict_raises Sample.request Sample.http
    Sample.fs =
    (JSONResponse 500
       {| err_status := "error";
          err_message := "Failed to generate the image internally." |},
     (File <$> ∅) ∪ Sample.fs).
Proof.
  apply (X5_upstream_exception_is_hidden
           Sample.service Cases.env_predict_raises Sample.request Sample.http Sample.fs
           "photos/delhi_mentor_male.jpg" Cases.prompt_happy Sample.client
           (ValueError "Could not fetch config")).
  - apply (bool_decide_unpack
             (bot_id Sample.request ∈ VALID_BOT_IDS Cases.env_predict_raises)).
    vm_compute. exact I.
  - reflexivity.
  - reflexivity.
  - reflexivity.
  - reflexivity.
Defined.

(** X6: the check of the result of [predict] passes exactly for a list
    whose first item is a dictionary with a true value under [image],
    and then yields that value; the other items and keys are not looked
    at. *)
Theorem X6_checked_image_iff (res image : pyval) :
  checked_image res = Ok image <->
  exists (entries : list (string * pyval)) (others : list pyval),
    res = PyList (PyDict entries :: others) /\
    dict_lookup "image" entries = Some image /\
    truthy image = true.
Proof.
  split.
  - unfold checked_image.
    destruct (truthy res) eqn:Hres; cbn [negb]; [|discriminate].
    destruct res as [| | | | |[|first others]|]; try discriminate.
    destruct first as [| | | | | |entries]; try discriminate.
    destruct (dict_lookup "image" entries) as [v|] eqn:Hv.
    + change (default PyNone (Some v)) with v.
      destruct (truthy v) eqn:Ht; [|intros H; discriminate H].
      intros [= <-]. exists entries, others. now repeat split.
    + intros H. discriminate H.
  - intros (entries & others & -> & Hv & Ht). unfold checked_image.
    cbn [truthy negb]. rewrite Hv. change (default PyNone (Some image)) with image.
    now rewrite Ht.
Qed.

(** X7: when the scene call returns JSON that is not an object (an
    array, a string, a number), a request that has passed the
    validations and finds the client set ends in the server's plain
    500: the exception of [context.get] is raised before the [try]
    statement, [predict] is not called and the file system is as it
    was. *)
Theorem X7_scene_not_an_object_is_plain_500
    (self : ChatbotService) (env : Env) (request : ImageGenerationRequest)
    (http_request : Request) (fs : gmap string node) :
  bot_id request ∈ VALID_BOT_IDS env ->
  is_Some (find_base_image fs (bot_id request) supported_extensions) ->
  is_Some (gradio_client self) ->
  (forall entries,
     extract_context env
       (get_bot_response_for_context env request (persona_name (bot_id request)))
     <> PyDict entries) ->
  post_generate_image self env request http_request fs = (InternalServerError, fs).
Proof.
  intros Hin [p Hfind] [client Hclient] Hctx.
  destruct (post_generate_image_cases self env request http_request fs)
    as [[Hout _]|[(_ & Hnone & _)|[(_ & _ & Hc & _)|[(_ & _ & _ & _ & E)|
       (p' & prompt & client' & _ & _ & _ & Hprompt & _)]]]].
  - contradiction.
  - congruence.
  - congruence.
  - exact E.
  - apply prompt_text_returns in Hprompt as [entries E]. now destruct (Hctx entries).
Qed.

Lemma X7_scene_not_an_object_is_plain_500_witness :
  post_generate_image Sample.service Cases.env_array_scene Sample.request Sample.http
    Sample.fs = (InternalServerError, Sample.fs).
Proof.
  apply X7_scene_not_an_object_is_plain_500.
  - apply (bool_decide_unpack
             (bot_id Sample.request ∈ VALID_BOT_IDS Cases.env_array_scene)).
    vm_compute. exact I.
  - exists "photos/delhi_mentor_male.jpg". reflexivity.
  - exists Sample.client. reflexivity.
  - intros entries. discriminate.
Defined.





(** X24: a save that cannot be done is answered with the JSON 500.
    For a request that has come as far as reading the image that
    [predict] pointed to: when [static/images] is no directory (it was
    made when the module was loaded and has been removed since) or the
    operating system refuses the file, nothing is saved; when the
    write fails after [open] has made or truncated the file, the file
    stays, with the bytes that got through.  The answer is the same
    fixed 500 in each case. *)
Theorem X24_failed_save
    (self : ChatbotService) (env : Env) (request : ImageGenerationRequest)
    (http_request : Request) (fs : gmap string node)
    (base_image_path prompt tmp : string) (client : Client)
    (items : list (string * pyval)) (others : list pyval) (image_bytes : list byte) :
  let fs1 :=
    (File <$> downloaded (predict env client (selfie_args base_image_path prompt)))
      ∪ fs in
  let out := output_path (unique_filename env) in
  let failed :=
    JSONResponse 500
      {| err_status := "error";
         err_message := "Failed to generate the image internally." |} in
  bot_id request ∈ VALID_BOT_IDS env ->
  find_base_image fs (bot_id request) supported_extensions = Some base_image_path ->
  gradio_client self = Some client ->
  prompt_text env (persona_name (bot_id request))
    (extract_context env
       (get_bot_response_for_context env request (persona_name (bot_id request)))) =
    Ok prompt ->
  returned (predict env client (selfie_args base_image_path prompt)) =
    Ok (PyList (PyDict items :: others)) ->
  dict_lookup "image" items = Some (PyStr tmp) ->
  tmp <> "" ->
  fs1 !! tmp = Some (File image_bytes) ->
  os_read env tmp = true ->
  (fs1 !! "static/images" <> Some Directory \/ os_write env out image_bytes = Refused ->
   post_generate_image self env request http_request fs = (failed, fs1)) /\
  (forall kept : nat,
     fs1 !! "static/images" = Some Directory ->
     fs1 !! out <> Some Directory ->
     os_write env out image_bytes = Torn kept ->
     post_generate_image self env request http_request fs =
       (failed, <[out := File (take kept image_bytes)]> fs1)).
Proof.
  intros fs1 out failed Hin Hfind Hclient Hprompt Hret Himage Htmp Hfile Hread.
  assert (Hrun : generate_image self env request http_request fs =
                 after_await env request http_request
                   {| aw_client := client;
                      aw_args := selfie_args base_image_path prompt;
                      aw_context :=
                        extract_context env
                          (get_bot_response_for_context env request
                             (persona_name (bot_id request))) |}
                   (Ok (PyList (PyDict items :: others))) fs1).
  { rewrite generate_image_staged.
    rewrite (before_await_ok self env request fs base_image_path prompt client)
      by assumption.
    cbn [aw_client aw_args]. unfold call_predict. fold fs1. now rewrite Hret. }
  assert (Hfail : forall fs2,
            write_file env out image_bytes fs1 = (Raise OSError, fs2) ->
            post_generate_image self env request http_request fs = (failed, fs2)).
  { intros fs2 Hwrite.
    assert (Hgen : generate_image self env request http_request fs =
                   (Raise (HTTPException 500 "Failed to generate the image internally."),
                    fs2)).
    { rewrite Hrun.
      unfold after_await. unfold mbind at 1, io_bind at 1, try_except.
      unfold mbind at 1, io_bind at 1, lift at 1.
      rewrite (save_result_read env items others tmp image_bytes fs1) by assumption.
      fold out. rewrite Hwrite. reflexivity. }
    rewrite post_generate_image_respond, Hgen. reflexivity. }
  split.
  - intros Hno. apply Hfail. unfold write_file, out.
    rewrite parent_is_directory_output_path. fold out.
    destruct Hno as [Hdir|Hrefused].
    + destruct (fs1 !! "static/images") as [[c|]|]; [reflexivity|contradiction|reflexivity].
    + destruct (fs1 !! "static/images") as [[c|]|]; cbn [negb]; try reflexivity.
      rewrite Hrefused. now destruct (fs1 !! out) as [[c|]|].
  - intros kept Hdir Hout Htorn. apply Hfail.
    rewrite write_file_written, Htorn;
      [reflexivity | unfold out; now rewrite parent_is_directory_output_path, Hdir
      | exact Hout].
Qed.

Lemma X24_failed_save_witness :
  post_generate_image Sample.service Sample.env Sample.request Sample.http
    Cases.fs_without_static =
    (JSONResponse 500
       {| err_status := "error";
          err_message := "Failed to generate the image internally." |},
     (File <$> {[ Sample.tmp_path := Sample.image ]}) ∪ Cases.fs_without_static) /\
  post_generate_image Sample.service Cases.env_torn_write Sample.request Sample.http
    Sample.fs =
    (JSONResponse 500
       {| err_status := "error";
          err_message := "Failed to generate the image internally." |},
     <[output_path (unique_filename Cases.env_torn_write) := File (take 2 Sample.image)]>
       ((File <$> {[ Sample.tmp_path := Sample.image ]}) ∪ Sample.fs)).
Proof.
  split.
  - refine (proj1 (X24_failed_save
                     Sample.service Sample.env Sample.request Sample.http
                     Cases.fs_without_static
                     "photos/delhi_mentor_male.jpg" Cases.prompt_happy Sample.tmp_path
                     Sample.client
                     [("image", PyStr Sample.tmp_path); ("caption", PyNone)] []
                     Sample.image _ eq_refl eq_refl eq_refl eq_refl eq_refl _ eq_refl
                     eq_refl) _).
    + apply (bool_decide_unpack (bot_id Sample.request ∈ VALID_BOT_IDS Sample.env)).
      vm_compute. exact I.
    + discriminate.
    + left. discriminate.
  - refine (proj2 (X24_failed_save
                     Sample.service Cases.env_torn_write Sample.request Sample.http
                     Sample.fs
                     "photos/delhi_mentor_male.jpg" Cases.prompt_happy Sample.tmp_path
                     Sample.client
                     [("image", PyStr Sample.tmp_path); ("caption", PyNone)] []
                     Sample.image _ eq_refl eq_refl eq_refl eq_refl eq_refl _ eq_refl
                     eq_refl) 2%nat eq_refl _ eq_refl).
    + apply (bool_decide_unpack
               (bot_id Sample.request ∈ VALID_BOT_IDS Cases.env_torn_write)).
      vm_compute. exact I.
    + discriminate.
    + discriminate.
Defined.

(** X10: the fields [email], [previous_conversation] and [username] of
    the request have no influence: two requests with the same bot
    identifier and message get the same answer and leave the same file
    system. *)
Theorem X10_only_bot_id_and_message_matter
    (self : ChatbotService) (env : Env) (request1 request2 : ImageGenerationRequest)
    (http_request : Request) (fs : gmap string node) :
  bot_id request1 = bot_id request2 ->
  message request1 = message request2 ->
  post_generate_image self env request1 http_request fs =
  post_generate_image self env request2 http_request fs.
Proof.
  intros Hbot Hmsg.
  assert (Hreaction : forall bot_name,
            get_bot_response_for_context env request1 bot_name =
            get_bot_response_for_context env request2 bot_name).
  { intros bot_name. unfold get_bot_response_for_context, reaction_args.
    now rewrite Hmsg. }
  unfold post_generate_image, generate_image.
  rewrite Hbot, Hreaction. reflexivity.
Qed.

Lemma X10_only_bot_id_and_message_matter_witness :
  post_generate_image Sample.service Sample.env Sample.request Sample.http Sample.fs =
  post_generate_image Sample.service Sample.env Cases.request_other_user Sample.http
    Sample.fs.
Proof.
  apply X10_only_bot_id_and_message_matter; reflexivity.
Defined.

(** ** The URL, the persona name *)

Lemma rstrip_slash_no_trailing (s : string) : endswith_slash (rstrip_slash s) = false.
Proof.
  induction s as [|c s IH]; [reflexivity|]. cbn [rstrip_slash].
  destruct (rstrip_slash s) as [|c' r] eqn:E.
  - destruct (Ascii.eqb c "/") eqn:Hc; [reflexivity|]. cbn. exact Hc.
  - exact IH.
Qed.

Lemma rstrip_slash_decompose (s : string) :
  exists tail : string,
    s = rstrip_slash s ++ tail /\ all_chars (fun c => Ascii.eqb c "/") tail = true.
Proof.
  induction s as [|c s (tail & Hs & Htail)]; [now exists ""|].
  cbn [rstrip_slash]. destruct (rstrip_slash s) as [|c' r] eqn:E.
  - rewrite append_nil in Hs. subst tail.
    destruct (Ascii.eqb c "/") eqn:Hc.
    + exists (String c s). split; [reflexivity|]. cbn [all_chars]. now rewrite Hc.
    + exists s. split; [reflexivity|assumption].
  - exists tail. split; [|assumption]. rewrite append_cons. now f_equal.
Qed.

(** X13: the trailing slashes of the base URL make no difference to
    the answer; what is put before [/static/images/...] never ends in a
    slash, and it is the base URL with nothing but slashes taken from
    its end. *)
Theorem X13_trailing_slashes_of_base_url
    (self : ChatbotService) (env : Env) (request : ImageGenerationRequest)
    (fs : gmap string node) (base : string) :
  post_generate_image self env request {| base_url := base ++ "/" |} fs =
  post_generate_image self env request {| base_url := base |} fs /\
  endswith_slash (rstrip_slash base) = false /\
  exists tail : string,
    base = rstrip_slash base ++ tail /\
    all_chars (fun c => Ascii.eqb c "/") tail = true.
Proof.
  split; [|split].
  - unfold post_generate_image, generate_image. cbn [base_url].
    now rewrite rstrip_slash_app_slash.
  - apply rstrip_slash_no_trailing.
  - apply rstrip_slash_decompose.
Qed.

Section Letters.

Let cased (c : ascii) : bool := is_upper c || is_lower c.

Lemma case_functions (c : ascii) :
  cased (to_upper c) = cased c /\ cased (to_lower c) = cased c /\
  to_upper (to_upper c) = to_upper c /\ to_lower (to_lower c) = to_lower c /\
  is_not "_" (to_upper c) = is_not "_" c /\ is_not "_" (to_lower c) = is_not "_" c.
Proof.
  destruct c as [[] [] [] [] [] [] [] []]; vm_compute; repeat split.
Qed.

Lemma title_from_idempotent (s : string) (flag : bool) :
  title_from flag (title_from flag s) = title_from flag s.
Proof.
  revert flag. induction s as [|c s IH]; intros flag; [reflexivity|].
  cbn [title_from].
  destruct (case_functions c) as (Hu & Hl & Huu & Hll & _).
  fold (cased c). destruct flag.
  - rewrite Hll. fold (cased (to_lower c)). rewrite Hl. now rewrite IH.
  - rewrite Huu. fold (cased (to_upper c)). rewrite Hu. now rewrite IH.
Qed.

Lemma title_from_length (s : string) (flag : bool) :
  String.length (title_from flag s) = String.length s.
Proof.
  revert flag. induction s as [|c s IH]; intros flag; [reflexivity|].
  cbn. now rewrite IH.
Qed.

Lemma title_from_underscores (s : string) (flag : bool) :
  all_chars (is_not "_") (title_from flag s) = all_chars (is_not "_") s.
Proof.
  revert flag. induction s as [|c s IH]; intros flag; [reflexivity|].
  cbn [title_from all_chars]. rewrite IH.
  destruct (case_functions c) as (_ & _ & _ & _ & Hu & Hl).
  destruct flag; now rewrite ?Hu, ?Hl.
Qed.

Lemma replace_underscore_none (s : string) :
  all_chars (is_not "_") (replace_underscore s) = true.
Proof.
  induction s as [|c s IH]; [reflexivity|]. cbn [replace_underscore all_chars].
  rewrite IH. destruct (Ascii.eqb c "_") eqn:Hc; [reflexivity|].
  unfold is_not. now rewrite Hc.
Qed.

Lemma replace_underscore_id (s : string) :
  all_chars (is_not "_") s = true -> replace_underscore s = s.
Proof.
  induction s as [|c s IH]; [reflexivity|]. cbn [replace_underscore all_chars].
  intros [Hc Hs]%andb_prop. unfold is_not in Hc. apply negb_true_iff in Hc.
  now rewrite Hc, IH.
Qed.

Lemma replace_underscore_length (s : string) :
  String.length (replace_underscore s) = String.length s.
Proof. induction s as [|c s IH]; [reflexivity|]. cbn. now rewrite IH. Qed.

End Letters.

(** X14: the persona name made from a bot identifier has as many
    characters as the identifier and no underscore, and making a
    persona name of it again gives it back. *)
Theorem X14_persona_name (bot_id : string) :
  String.length (persona_name bot_id) = String.length bot_id /\
  all_chars (is_not "_") (persona_name bot_id) = true /\
  persona_name (persona_name bot_id) = persona_name bot_id.
Proof.
  unfold persona_name, title.
  assert (Hnone : all_chars (is_not "_") (title_from false (replace_underscore bot_id))
                  = true).
  { rewrite title_from_underscores. apply replace_underscore_none. }
  split; [|split].
  - now rewrite title_from_length, replace_underscore_length.
  - exact Hnone.
  - rewrite (replace_underscore_id _ Hnone). apply title_from_idempotent.
Qed.

(** ** Construction and start of the service *)

(** X15: a service can be constructed only from a non-empty API key,
    which it keeps through the start; after the start, requests that
    pass the validations are answered 503 exactly when constructing the
    Gradio client raised, so the application starts either way. *)
Theorem X15_start_decides_503
    (environ_key : option string) (service : ChatbotService)
    (constructed : result Client) (env : Env) (request : ImageGenerationRequest)
    (http_request : Request) (fs : gmap string node) :
  ChatbotService_init environ_key = Ok service ->
  let started := lifespan_startup service constructed in
  (exists key : string,
     environ_key = Some key /\ key <> "" /\ gemini_api_key started = key) /\
  (bot_id request ∈ VALID_BOT_IDS env ->
   is_Some (find_base_image fs (bot_id request) supported_extensions) ->
   (status_code_of (post_generate_image started env request http_request fs).1 = 503%Z
    <-> exists e, constructed = Raise e)).
Proof.
  intros Hinit started. split.
  - unfold ChatbotService_init in Hinit.
    destruct environ_key as [[|c key]|]; try discriminate.
    injection Hinit as <-. exists (String c key). repeat split; [discriminate|].
    unfold started, lifespan_startup, initialize_gradio_client.
    now destruct constructed.
  - intros Hin [p Hfind].
    assert (Hclient : gradio_client started =
                      match constructed with Ok client => Some client | Raise _ => None end).
    { unfold started, lifespan_startup, initialize_gradio_client.
      now destruct constructed. }
    destruct (post_generate_image_cases started env request http_request fs)
      as [[Hout _]|[(_ & Hnone & _)|[(_ & _ & Hc & ->)|[(_ & _ & [c Hc] & _ & ->)|
         (p' & prompt & client & _ & _ & Hc & _ &
            [(fs' & -> & _)|(bytes & [[_ ->]|(validated & _ & ->)])])]]]];
      try contradiction; try congruence;
      cbn [fst status_code_of http_exception_handler]; rewrite Hclient in Hc;
      destruct constructed as [client0|e0]; try discriminate;
      split; try discriminate; eauto; intros [e' He']; discriminate He'.
Qed.

Lemma X15_start_decides_503_witness :
  status_code_of
    (post_generate_image
       (lifespan_startup {| gradio_client := None; gemini_api_key := "key" |}
          (Raise OSError))
       Sample.env Sample.request Sample.http Sample.fs).1 = 503%Z.
Proof.
  apply (proj2 (X15_start_decides_503
                  (Some "key") {| gradio_client := None; gemini_api_key := "key" |}
                  (Raise OSError) Sample.env Sample.request Sample.http Sample.fs
                  eq_refl)).
  - apply (bool_decide_unpack (bot_id Sample.request ∈ VALID_BOT_IDS Sample.env)).
    vm_compute. exact I.
  - exists "photos/delhi_mentor_male.jpg". reflexivity.
  - exists OSError. reflexivity.
Defined.

(** ** The list of allowed origins *)

Lemma split_comma_nonempty (s : string) : split_comma s <> [].
Proof.
  induction s as [|c s IH]; [discriminate|]. cbn [split_comma].
  destruct (Ascii.eqb c ","); [discriminate|].
  destruct (split_comma s); [contradiction|discriminate].
Qed.

(** X16: joining the allowed origins with commas gives back the value
    of [CORS_ALLOWED_ORIGINS] (the wildcard when the variable is not
    set): nothing is trimmed or dropped, empty pieces included. *)
Theorem X16_allowed_origins_join (environ_value : option string) :
  join_comma (allowed_origins environ_value) = default "*" environ_value.
Proof.
  unfold allowed_origins. generalize (default "*" environ_value). intros s.
  induction s as [|c s IH]; [reflexivity|]. cbn [split_comma].
  destruct (Ascii.eqb c ",") eqn:Hc.
  - apply Ascii.eqb_eq in Hc as ->.
    pose proof (split_comma_nonempty s) as Hne.
    destruct (split_comma s) as [|piece pieces]; [contradiction|].
    change (join_comma ("" :: piece :: pieces))
      with ("" ++ "," ++ join_comma (piece :: pieces)).
    rewrite IH. reflexivity.
  - pose proof (split_comma_nonempty s) as Hne.
    destruct (split_comma s) as [|piece pieces]; [contradiction|].
    destruct pieces as [|piece' pieces].
    + change (join_comma [piece]) with piece in IH.
      change (join_comma [String c piece]) with (String c piece). now rewrite IH.
    + change (join_comma (piece :: piece' :: pieces))
        with (piece ++ "," ++ join_comma (piece' :: pieces)) in IH.
      change (join_comma (String c piece :: piece' :: pieces))
        with (String c piece ++ "," ++ join_comma (piece' :: pieces)).
      rewrite append_cons. now rewrite IH.
Qed.

(** X17: there is always at least one allowed origin, none contains a
    comma, and there is one more origin than there are commas in the
    value. *)
Theorem X17_allowed_origins_pieces (environ_value : option string) :
  let value := default "*" environ_value in
  allowed_origins environ_value <> [] /\
  Forall (fun origin => all_chars (is_not ",") origin = true)
    (allowed_origins environ_value) /\
  length (allowed_origins environ_value) =
    S (length (filter (fun c => Ascii.eqb c "," = true) (list_ascii_of_string value))).
Proof.
  cbv zeta. unfold allowed_origins. generalize (default "*" environ_value). intros s.
  split; [apply split_comma_nonempty|].
  induction s as [|c s [IHp IHl]].
  - split; [repeat constructor | reflexivity].
  - cbn [split_comma list_ascii_of_string].
    pose proof (split_comma_nonempty s) as Hne.
    destruct (Ascii.eqb c ",") eqn:Hc.
    + rewrite filter_cons_True by assumption.
      split; [constructor; [reflexivity|assumption] | cbn [length]; now rewrite IHl].
    + rewrite filter_cons_False by (rewrite Hc; discriminate).
      destruct (split_comma s) as [|piece pieces]; [contradiction|].
      split.
      * inversion IHp as [|? ? Hpiece Hrest]; subst. constructor; [|assumption].
        cbn [all_chars]. unfold is_not at 1. now rewrite Hc, Hpiece.
      * exact IHl.
Qed.

(** ** The Base64 text *)

Lemma char_of_in_alphabet (i : N) :
  (match index_of (char_of i) with
   | Some _ => true
   | None => Ascii.eqb (char_of i) pad
   end && (N_of_ascii (char_of i) <? 128)%N) = true.
Proof.
  destruct (N.lt_ge_cases i 64) as [Hi|Hi].
  - assert (Hall : forallb
              (fun j => match index_of (char_of j) with
                        | Some _ => true
                        | None => Ascii.eqb (char_of j) pad
                        end && (N_of_ascii (char_of j) <? 128)%N)
              (map N.of_nat (seq 0 64)) = true) by (vm_compute; reflexivity).
    rewrite forallb_forall in Hall. apply Hall. now apply N_below_in_seq.
  - unfold char_of. rewrite get_beyond; [reflexivity|]. cbn. lia.
Qed.

(** X18: the Base64 text of [n] bytes has [4 * ceil(n / 3)] characters,
    each a character of the Base64 alphabet or the padding sign, all of
    them ASCII, so that decoding the encoder's output as UTF-8 cannot
    fail. *)
Theorem X18_b64encode_shape (bs : list byte) :
  String.length (b64encode bs) = (4 * ((length bs + 2) / 3))%nat /\
  all_chars
    (fun c => match index_of c with
              | Some _ => true
              | None => Ascii.eqb c pad
              end && (N_of_ascii c <? 128)%N)
    (b64encode bs) = true.
Proof.
  induction bs as [|a|a b|a b c l [IHl IHc]] using list_ind3.
  - split; reflexivity.
  - split; [reflexivity|]. cbn [b64encode all_chars].
    now rewrite !char_of_in_alphabet.
  - split; [reflexivity|]. cbn [b64encode all_chars].
    now rewrite !char_of_in_alphabet.
  - split.
    + cbn [b64encode String.length length]. rewrite IHl.
      replace (S (S (S (length l))) + 2)%nat with (1 * 3 + (length l + 2))%nat by lia.
      rewrite Nat.div_add_l by lia. lia.
    + cbn [b64encode all_chars]. now rewrite !char_of_in_alphabet, IHc.
Qed.

(** ** The steps of two requests *)

Lemma advance_keeps_paths (self : ChatbotService) (calls : bool -> call)
    (v : bool) (st : server) (path : string) :
  is_Some (files st !! path) -> is_Some (files (advance self calls v st) !! path).
Proof.
  intros Hsome. unfold advance.
  destruct (phases st v) as [|aw|aw outcome|response]; [| | |assumption].
  - now destruct (before_await _ _ _ _).
  - unfold call_predict. cbn [files].
    destruct (downloaded (predict (call_env (calls v)) (aw_client aw) (aw_args aw))
                !! path) as [content|] eqn:Hd.
    + exists (File content). apply lookup_union_Some_l. now rewrite lookup_fmap, Hd.
    + rewrite lookup_union_r by now rewrite lookup_fmap, Hd. assumption.
  - destruct (after_await _ _ _ _ _ _) as [r fs'] eqn:Hafter. cbn [files].
    apply after_await_effect in Hafter as [[-> _]|(image_bytes & -> & _)];
      [assumption|].
    destruct (decide (output_path (unique_filename (call_env (calls v))) = path))
      as [<-|Hne].
    + rewrite lookup_insert_eq. eauto.
    + now rewrite lookup_insert_ne.
Qed.

(** X22: under every schedule of the two requests, no path is ever
    removed: what exists before the requests exists after them. *)
Theorem X22_no_schedule_removes_a_path
    (self : ChatbotService) (calls : bool -> call) (schedule : list bool)
    (st : server) (path : string) :
  is_Some (files st !! path) ->
  is_Some (files (run self calls schedule st) !! path).
Proof.
  revert st. induction schedule as [|v schedule IH]; intros st Hsome; [exact Hsome|].
  cbn [run foldl]. apply IH. now apply advance_keeps_paths.
Qed.

Lemma X22_no_schedule_removes_a_path_witness :
  is_Some
    (files (run Sample.service Sample.calls [true; false; false; true; true; false]
              (idle Sample.fs)) !! "photos/delhi_mentor_male.jpg").
Proof.
  apply X22_no_schedule_removes_a_path. eexists. reflexivity.
Defined.

(** X23: the endpoint does not look whether the name it saves under is
    taken.  When a later request draws the UUID of an earlier one, both
    are answered 200 with the same path in [image_url], and the file
    then holds the image of the later request. *)
Theorem X23_same_uuid_overwrites
    (self : ChatbotService) (env1 env2 : Env)
    (request1 request2 : ImageGenerationRequest) (http_request : Request)
    (fs0 fs1 fs2 : gmap string node) (body1 body2 : ImageGenerationResponse) :
  post_generate_image self env1 request1 http_request fs0 = (Success body1, fs1) ->
  post_generate_image self env2 request2 http_request fs1 = (Success body2, fs2) ->
  uuid4 env1 = uuid4 env2 ->
  image_url body1 = image_url body2 /\
  exists image_bytes : list byte,
    fs2 !! output_path (unique_filename env1) = Some (File image_bytes) /\
    b64decode (image_base64 body2) = Some image_bytes.
Proof.
  intros Hrun1 Hrun2 Huuid.
  assert (Hname : unique_filename env1 = unique_filename env2)
    by (unfold unique_filename; now rewrite Huuid).
  apply post_generate_image_success in Hrun1
    as (p1 & c1 & a1 & t1 & bytes1 & _ & _ & _ & _ & _ & _ & Hurl1 & _ & _ & _ & _).
  apply post_generate_image_success in Hrun2
    as (p2 & c2 & a2 & t2 & bytes2 & _ & _ & _ & _ & _ & _ & Hurl2 & Hb2 & _ & _ & ->).
  split; [now rewrite Hurl1, Hurl2, Hname|].
  exists bytes2. split.
  - rewrite Hname. apply lookup_insert_eq.
  - rewrite Hb2. apply b64decode_b64encode.
Qed.

Lemma X23_same_uuid_overwrites_witness :
  "http://testserver/static/images/123e4567-e89b-42d3-a456-426614174000.png" =
    "http://testserver/static/images/123e4567-e89b-42d3-a456-426614174000.png" /\
  exists image_bytes : list byte,
    (post_generate_image Sample.service Sample.env Cases.request_other_user Sample.http
       (post_generate_image Sample.service Sample.env Sample.request Sample.http
          Sample.fs).2).2
      !! output_path (unique_filename Sample.env) = Some (File image_bytes) /\
    b64decode "iVBORw0=" = Some image_bytes.
Proof.
  refine (X23_same_uuid_overwrites
            Sample.service Sample.env Sample.env Sample.request Cases.request_other_user
            Sample.http Sample.fs
            (post_generate_image Sample.service Sample.env Sample.request Sample.http
               Sample.fs).2
            (post_generate_image Sample.service Sample.env Cases.request_other_user
               Sample.http
               (post_generate_image Sample.service Sample.env Sample.request Sample.http
                  Sample.fs).2).2
            {| resp_bot_id := "delhi_mentor_male";
               image_url :=
                 "http://testserver/static/images/123e4567-e89b-42d3-a456-426614174000.png";
               image_base64 := "iVBORw0=";
               status := "success";
               emotion_context := [("emotion", "happy")] |}
            {| resp_bot_id := "delhi_mentor_male";
               image_url :=
                 "http://testserver/static/images/123e4567-e89b-42d3-a456-426614174000.png";
               image_base64 := "iVBORw0=";
               status := "success";
               emotion_context := [("emotion", "happy")] |}
            _ _ _).
  - reflexivity.
  - reflexivity.
  - reflexivity.
Defined.
